(** * get-commenters: loading the pull-request list and running the batch

    A shallow embedding of [src/cmd/get-commenters.go]
    ([validateHeader], [loadPrListFile], [performAction]) together with
    the small parts of Go's standard library that the code relies on
    ([strings.ToLower], the [regexp] fragment of its two patterns,
    [encoding/csv]'s reader, [fmt.Sprintf] for the [%s] verb).

    Go strings are byte sequences: they are modelled by [string], whose
    characters ([ascii]) are the 256 byte values. *)

From Stdlib Require Import String Ascii List ZArith Bool Arith Lia.
Import ListNotations.

Local Open Scope string_scope.
Local Open Scope list_scope.
Local Open Scope Z_scope.

(** ** Bytes and string constants *)

(** The newline and the double quote of the Go string literals. *)
Definition nl : string := String (ascii_of_nat 10) EmptyString.
Definition dq : string := String (ascii_of_nat 34) EmptyString.

Definition byte_le (a b : ascii) : bool := (nat_of_ascii a <=? nat_of_ascii b)%nat.

Definition in_range (lo hi c : ascii) : bool := byte_le lo c && byte_le c hi.

Fixpoint string_forallb (p : ascii -> bool) (s : string) : bool :=
  match s with
  | EmptyString => true
  | String c s' => p c && string_forallb p s'
  end.

Fixpoint string_map (f : ascii -> ascii) (s : string) : string :=
  match s with
  | EmptyString => EmptyString
  | String c s' => String (f c) (string_map f s')
  end.

(** ** [regexp]: the fragment used by the two patterns

    [syntax] is the parse tree of a pattern ([regexp/syntax]); classes hold
    byte ranges.  All classes of this program are ASCII, and a byte below
    0x80 is always a rune of its own, so matching byte by byte agrees with
    Go's matching rune by rune. *)
Module Regexp.

Inductive syntax : Type :=
| BeginText                                   (* ^ without the m flag *)
| EndText                                     (* $ without the m flag *)
| CharClass (ranges : list (ascii * ascii))   (* [...] *)
| Plus (r : syntax)                           (* r+ *)
| Concat (r1 r2 : syntax).

Definition in_class (ranges : list (ascii * ascii)) (c : ascii) : bool :=
  existsb (fun r => in_range (fst r) (snd r) c) ranges.

(** A continuation [k bot rest] receives what is left of the text, and
    whether the position is still the beginning of the text. *)
Definition cont : Type := bool -> string -> bool.

(** One or more iterations of a sub-matcher [m1].  An iteration that
    consumes nothing is not repeated, so [S (length s)] rounds are always
    enough on a text [s]. *)
Fixpoint plus_loop (m1 : bool -> string -> cont -> bool) (k : cont)
         (fuel : nat) (bot : bool) (t : string) : bool :=
  match fuel with
  | O => false
  | S fuel' =>
      m1 bot t (fun bot' t' =>
        k bot' t' ||
        (if (String.length t' <? String.length t)%nat
         then plus_loop m1 k fuel' bot' t' else false))
  end.

(** Backtracking match of [r] at the current position. *)
Fixpoint matchk (r : syntax) (bot : bool) (s : string) (k : cont) : bool :=
  match r with
  | BeginText => bot && k bot s
  | EndText => match s with EmptyString => k bot s | String _ _ => false end
  | CharClass ranges =>
      match s with
      | EmptyString => false
      | String c s' => in_class ranges c && k false s'
      end
  | Plus r1 => plus_loop (matchk r1) k (S (String.length s)) bot s
  | Concat r1 r2 => matchk r1 bot s (fun bot' s' => matchk r2 bot' s' k)
  end.

(** An unanchored search: a match may start at any position. *)
Fixpoint search (r : syntax) (bot : bool) (s : string) : bool :=
  matchk r bot s (fun _ _ => true) ||
  match s with
  | EmptyString => false
  | String _ s' => search r false s'
  end.

(** The method [MatchString] of a compiled pattern. *)
Definition MatchString (r : syntax) (s : string) : bool := search r true s.

(** Perl classes, as [regexp/syntax] defines them (ASCII only). *)
Definition perl_d : list (ascii * ascii) := [("0"%char, "9"%char)].
Definition perl_w : list (ascii * ascii) :=
  [("0"%char, "9"%char); ("A"%char, "Z"%char); ("_"%char, "_"%char);
   ("a"%char, "z"%char)].

End Regexp.

(** [regexp.Compile(`^[\w-\.]+$`)]: inside the brackets [\w] is followed by
    the two literals [-] and [.]. *)
Definition prj_regexp : Regexp.syntax :=
  Regexp.Concat Regexp.BeginText
    (Regexp.Concat
       (Regexp.Plus
          (Regexp.CharClass
             (Regexp.perl_w ++ [("-"%char, "-"%char); ("."%char, "."%char)])))
       Regexp.EndText).

(** [regexp.Compile(`^\d+$`)]. *)
Definition pr_regexp : Regexp.syntax :=
  Regexp.Concat Regexp.BeginText
    (Regexp.Concat (Regexp.Plus (Regexp.CharClass Regexp.perl_d))
       Regexp.EndText).

(** ** [strings.ToLower]

    Go lowers an ASCII-only string byte by byte (its fast path) and maps
    [unicode.ToLower] over the runes of any other string; the Unicode case
    tables are not modelled, that second path is the parameter
    [unicodeToLower]. *)
Definition isASCII (s : string) : bool :=
  string_forallb (fun c => (nat_of_ascii c <? 128)%nat) s.

Definition lower_byte (c : ascii) : ascii :=
  if in_range "A"%char "Z"%char c then ascii_of_nat (nat_of_ascii c + 32) else c.

Definition ToLower (unicodeToLower : string -> string) (s : string) : string :=
  if isASCII s then string_map lower_byte s else unicodeToLower s.

(** ** [fmt.Sprintf], for string operands and formats whose only verb is [%s]

    A missing operand and operands left over are reported as Go reports
    them. *)
Fixpoint join_extra (args : list string) : string :=
  match args with
  | [] => EmptyString
  | [a] => ("string=" ++ a)%string
  | a :: rest => ("string=" ++ a ++ ", " ++ join_extra rest)%string
  end.

Fixpoint Sprintf (format : string) (args : list string) : string :=
  match format with
  | EmptyString =>
      match args with
      | [] => EmptyString
      | _ :: _ => ("%!(EXTRA " ++ join_extra args ++ ")")%string
      end
  | String c rest =>
      match rest with
      | String v rest' =>
          if (Ascii.eqb c "%"%char && Ascii.eqb v "s"%char)%bool then
            match args with
            | a :: args' => (a ++ Sprintf rest' args')%string
            | [] => ("%!s(MISSING)" ++ Sprintf rest' [])%string
            end
          else String c (Sprintf rest args)
      | EmptyString => String c (Sprintf rest args)
      end
  end.

(** ** Go's [int] and [len]

    [int] is the 64-bit signed integer of the platforms the tool is built
    for; additions wrap around. *)
Definition int_wrap (z : Z) : Z := (z + 2 ^ 63) mod 2 ^ 64 - 2 ^ 63.
Definition maxInt : Z := 2 ^ 63 - 1.
Definition minInt : Z := - 2 ^ 63.

Definition len {A : Type} (l : list A) : Z := Z.of_nat (length l).

(** ** [encoding/csv]: the reader

    A file is seen through the reader as its sequence of lines, each one
    either a parsed record or a syntax error.  A reader made by
    [NewReader] has [FieldsPerRecord = 0]: the first record read fixes the
    number of fields that every later record must have. *)
Module csv.

Inductive line : Type :=
| Fields (fs : list string)
| Malformed.

Inductive error : Type := EOF | ErrSyntax | ErrFieldCount.

Record Reader : Type := mkReader { input : list line; FieldsPerRecord : Z }.

Definition NewReader (f : list line) : Reader :=
  {| input := f; FieldsPerRecord := 0 |}.

(** What the reader does with one line: the new [FieldsPerRecord], the
    record and the error. *)
Definition readLine (fpr : Z) (l : line) : Z * list string * option error :=
  match l with
  | Malformed => (fpr, [], Some ErrSyntax)
  | Fields dst =>
      if 0 <? fpr then
        if negb (len dst =? fpr) then (fpr, dst, Some ErrFieldCount)
        else (fpr, dst, None)
      else if fpr =? 0 then (len dst, dst, None)
      else (fpr, dst, None)
  end.

Definition Read (r : Reader) : Reader * list string * option error :=
  match input r with
  | [] => (r, [], Some EOF)
  | l :: rest =>
      let '(fpr, record, err) := readLine (FieldsPerRecord r) l in
      ({| input := rest; FieldsPerRecord := fpr |}, record, err)
  end.

(** [ReadAll]: records are appended until the end of the input; the
    first error discards them. *)
Fixpoint ReadAll_from (ls : list line) (fpr : Z) (records : list (list string))
  : Reader * list (list string) * option error :=
  match ls with
  | [] => ({| input := []; FieldsPerRecord := fpr |}, records, None)
  | l :: rest =>
      let '(fpr', record, err) := readLine fpr l in
      match err with
      | Some e => ({| input := rest; FieldsPerRecord := fpr' |}, [], Some e)
      | None => ReadAll_from rest fpr' (records ++ [record])
      end
  end.

Definition ReadAll (r : Reader) : Reader * list (list string) * option error :=
  ReadAll_from (input r) (FieldsPerRecord r) [].

End csv.

(** ** What a run does: events, outcomes, and the monad of the program *)

Inductive error : Type :=
| ErrOpen                      (* os.Open failed *)
| ErrCsv (e : csv.error)
| ErrBar.                      (* the progress bar could not be updated *)

(** Operands of the printing calls; [VErr None] is a nil error. *)
Inductive Value : Type :=
| VString (s : string)
| VInt (z : Z)
| VErr (e : option error).

(** The calls of the program that reach outside of it, in the order in
    which it makes them. *)
Inductive Event : Type :=
| EvPrintf (format : string) (args : list Value)        (* fmt.Printf *)
| EvPrintln (s : string)                                (* fmt.Println *)
| EvLogPrintf (format : string) (args : list Value)     (* log.Printf *)
| EvDebugPrintf (format : string) (args : list Value)   (* loggers.debug.Printf *)
| EvRemove (name : string)                              (* os.Remove *)
| EvQuota (expectedLoad : Z)                            (* checkIfSufficientQuota *)
| EvBarDefault (max : Z)                                (* progressbar.Default *)
| EvBarAdd (n : Z)                                      (* bar.Add *)
| EvGetCommenters (pr : string) (isAppend isNoHeader : bool)
                  (outputFile : string) (nbrOfComments : Z).

Inductive Outcome (A : Type) : Type :=
| Returned (a : A)
| Exited (code : Z)            (* os.Exit *)
| Panicked.                    (* index out of range *)
Arguments Returned {A} a.
Arguments Exited {A} code.
Arguments Panicked {A}.

(** A computation from a state of the world: its outcome, the state it
    leaves, and the events it produced. *)
Definition M (World A : Type) : Type := World -> Outcome A * World * list Event.

Definition ret {World A : Type} (a : A) : M World A :=
  fun w => (Returned a, w, []).

Definition bind {World A B : Type} (m : M World A) (f : A -> M World B) : M World B :=
  fun w =>
    match m w with
    | (Returned a, w1, t1) =>
        let '(o, w2, t2) := f a w1 in (o, w2, t1 ++ t2)
    | (Exited code, w1, t1) => (Exited code, w1, t1)
    | (Panicked, w1, t1) => (Panicked, w1, t1)
    end.

Notation "x <- m ;; k" := (bind m (fun x => k))
  (at level 61, m at next level, right associativity).
Notation "m ;; k" := (bind m (fun _ => k))
  (at level 61, right associativity).

Definition emit {World : Type} (e : Event) : M World unit :=
  fun w => (Returned tt, w, [e]).

Definition panic {World A : Type} : M World A :=
  fun w => (Panicked, w, []).

Definition os_Exit {World A : Type} (code : Z) : M World A :=
  fun w => (Exited code, w, []).

Definition when {World : Type} (b : bool) (m : M World unit) : M World unit :=
  if b then m else ret tt.

(** [l[i]]: an index out of range panics. *)
Definition index {World A : Type} (l : list A) (i : nat) : M World A :=
  match nth_error l i with
  | Some x => ret x
  | None => panic
  end.

Definition outcome_of {World A : Type} (r : Outcome A * World * list Event) : Outcome A :=
  fst (fst r).
Definition world_of {World A : Type} (r : Outcome A * World * list Event) : World :=
  snd (fst r).
Definition trace_of {World A : Type} (r : Outcome A * World * list Event) : list Event :=
  snd r.

(** ** The package-level variables and the collaborators

    The flags are set by the command line before [performAction] runs.
    The functions below are called by the code under study and defined
    elsewhere: the validator of organisation names, the operating system,
    the quota guard, the fetch of the commenters and the progress bar. *)
Record Globals : Type := mkGlobals {
  isVerbose : bool;
  isRootDebug : bool;
  globalIsAppend : bool;
  globalIsNoHeader : bool;
  outputFileName : string
}.

Class Collaborators (World : Type) : Type := {
  (** [os.Open] followed by [csv.NewReader]: the lines of the file, or
      nothing when it cannot be opened. *)
  os_Open : string -> World -> option (list csv.line);
  fileExist : string -> World -> bool;
  os_Remove : string -> World -> World;
  isValidOrgFormat : string -> bool;
  unicodeToLower : string -> string;
  (** Returns normally ([None]) or terminates the process with a status. *)
  checkIfSufficientQuota : Z -> World -> option Z * World;
  (** The number of comments found; the rows are written as a side effect. *)
  getCommenters : string -> bool -> bool -> string -> World -> Z * World;
  progressbar_Default : Z -> World -> World;
  (** [true] when [bar.Add] returns an error. *)
  bar_Add : Z -> World -> bool * World
}.

Definition referenceCSVheader : list string :=
  ["org"; "repository"; "number"; "url"; "state"; "created_at"; "merged_at";
   "user.login"; "month_year"; "title"].

(** The three summary counters of [performAction]. *)
Record Accounting : Type := mkAccounting {
  nbrPR_noComment : Z;
  nbrPR_withComments : Z;
  totalComments : Z
}.

Section Program.

Context {World : Type} {C : Collaborators World}.
Variable g : Globals.

Local Abbreviation M := (M World).

(** *** Calls of the collaborators, each recorded in the trace *)

Definition call_os_Remove (name : string) : M unit :=
  fun w => (Returned tt, os_Remove name w, [EvRemove name]).

Definition call_fileExist (name : string) : M bool :=
  fun w => (Returned (fileExist name w), w, []).

Definition call_checkIfSufficientQuota (expectedLoad : Z) : M unit :=
  fun w =>
    match checkIfSufficientQuota expectedLoad w with
    | (None, w') => (Returned tt, w', [EvQuota expectedLoad])
    | (Some code, w') => (Exited code, w', [EvQuota expectedLoad])
    end.

Definition call_getCommenters (pr : string) (isAppend isNoHeader : bool)
           (outputFile : string) : M Z :=
  fun w =>
    let '(n, w') := getCommenters pr isAppend isNoHeader outputFile w in
    (Returned n, w', [EvGetCommenters pr isAppend isNoHeader outputFile n]).

Definition call_progressbar_Default (max : Z) : M unit :=
  fun w => (Returned tt, progressbar_Default max w, [EvBarDefault max]).

Definition call_bar_Add (n : Z) : M bool :=
  fun w => let '(failed, w') := bar_Add n w in (Returned failed, w', [EvBarAdd n]).

Definition call_os_Open (fileName : string) : M (option (list csv.line)) :=
  fun w => (Returned (os_Open fileName w), w, []).

(** *** [validateHeader] *)

(** The loop [for i, v := range header], from index [i] on. *)
Fixpoint validateHeader_range (i : nat) (header referenceHeader : list string)
         (isVerbose : bool) : M bool :=
  match header with
  | [] => ret true
  | v :: rest =>
      ref_i <- index referenceHeader i ;;
      if negb (String.eqb v ref_i) then
        when isVerbose
          (emit (EvPrintf
             (" Error: not the expected header field at column %d (found "
                ++ dq ++ "%v" ++ dq ++ ", wanted " ++ dq ++ "%v" ++ dq ++ ")" ++ nl)%string
             [VInt (Z.of_nat i + 1); VString v; VString ref_i])) ;;
        ret false
      else validateHeader_range (S i) rest referenceHeader isVerbose
  end.

Definition validateHeader (header referenceHeader : list string)
           (isVerbose : bool) : M bool :=
  if negb (len header =? len referenceHeader) then
    when isVerbose
      (emit (EvPrintf
         (" Error: field number mismatch (found %d, wanted %d)" ++ nl)%string
         [VInt (len header); VInt (len referenceHeader)])) ;;
    ret false
  else validateHeader_range 0 header referenceHeader isVerbose.

(** *** [loadPrListFile] *)

Definition orgErrorFormat : string :=
  (" Error: ORG field " ++ dq ++ "%s" ++ dq
     ++ " doesn't seem to be a valid GitHub org." ++ nl)%string.
Definition prjErrorFormat : string :=
  (" Error: PRJ field " ++ dq ++ "%s" ++ dq ++ " is not of the expected format")%string.
Definition prErrorFormat : string :=
  (" Error: PR field " ++ dq ++ "%s" ++ dq ++ " is not a (positive) number")%string.

(** The diagnostic of a rejected field: on the standard output when
    verbose, in the debug log when debugging. *)
Definition fieldError (format field : string) (isVerbose : bool) : M unit :=
  when isVerbose (emit (EvPrintf format [VString field])) ;;
  when (isRootDebug g) (emit (EvDebugPrintf format [VString field])).

(** The body of the loop over the records: the work item of [dataLine],
    or [None] when the function returns [nil, false] from inside it. *)
Definition loadPrListFile_body (dataLine : list string) (isVerbose : bool)
  : M (option string) :=
  org <- index dataLine 0 ;;
  if negb (isValidOrgFormat org) then
    fieldError orgErrorFormat org isVerbose ;; ret None
  else
    prj <- index dataLine 1 ;;
    if negb (Regexp.MatchString prj_regexp (ToLower unicodeToLower prj)) then
      fieldError prjErrorFormat prj isVerbose ;; ret None
    else
      prNbr <- index dataLine 2 ;;
      if negb (Regexp.MatchString pr_regexp prNbr) then
        fieldError prErrorFormat prNbr isVerbose ;; ret None
      else
        ret (Some (Sprintf "%s/%s/%s" [org; prj; prNbr])).

(** The loop [for _, dataLine := range records], with the list built so
    far. *)
Fixpoint loadPrListFile_loop (records : list (list string)) (prList : list string)
         (isVerbose : bool) : M (option (list string)) :=
  match records with
  | [] => ret (Some prList)
  | dataLine :: rest =>
      item <- loadPrListFile_body dataLine isVerbose ;;
      match item with
      | None => ret None
      | Some prInfo => loadPrListFile_loop rest (prList ++ [prInfo]) isVerbose
      end
  end.

Definition noDataMessage : string :=
  ("Error: No data available after the header" ++ nl)%string.
Definition headerErrorMessage : string := " Error: header is incorrect.".

Definition loadPrListFile (fileName : string) (isVerbose : bool)
  : M (list string * bool) :=
  f <- call_os_Open fileName ;;
  match f with
  | None =>
      emit (EvLogPrintf ("Unable to read input file " ++ fileName ++ nl)%string
              [VErr (Some ErrOpen)]) ;;
      ret ([], false)
  | Some lines =>
      let r := csv.NewReader lines in
      let '(r, headerLine, err1) := csv.Read r in
      match err1 with
      | Some _ =>
          emit (EvLogPrintf ("Unexpected error loading" ++ fileName ++ nl)%string
                  [VErr None]) ;;
          ret ([], false)
      | None =>
          when isVerbose (emit (EvPrintln "Checking input file")) ;;
          ok <- validateHeader headerLine referenceCSVheader isVerbose ;;
          if negb ok then
            emit (EvPrintln headerErrorMessage) ;;
            ret ([], false)
          else
            when isVerbose (emit (EvPrintf ("  - Header is correct" ++ nl)%string [])) ;;
            let '(r, records, err) := csv.ReadAll r in
            match err with
            | Some e =>
                emit (EvLogPrintf
                        ("Unexpected error loading " ++ dq ++ fileName ++ dq ++ nl)%string
                        [VErr (Some (ErrCsv e))]) ;;
                ret ([], false)
            | None =>
                if len records <? 2 then
                  emit (EvPrintf noDataMessage []) ;;
                  ret ([], false)
                else
                  when isVerbose
                    (emit (EvPrintln "  - At least one Pull Request data available")) ;;
                  res <- loadPrListFile_loop records [] isVerbose ;;
                  match res with
                  | None => ret ([], false)
                  | Some prList =>
                      when isVerbose
                        (emit (EvPrintf
                           ("Successfully loaded " ++ dq ++ "%s" ++ dq
                              ++ " (%d Pull Request to analyze)" ++ nl ++ nl)%string
                           [VString fileName; VInt (len prList)])) ;;
                      ret (prList, true)
                  end
            end
      end
  end.

(** *** [performAction] *)

(** One item of the batch: the fetch and the accounting. *)
Definition account (acc : Accounting) (nbrOfComments : Z) : Accounting :=
  let total := int_wrap (totalComments acc + nbrOfComments) in
  if nbrOfComments =? 0 then
    {| nbrPR_noComment := int_wrap (nbrPR_noComment acc + 1);
       nbrPR_withComments := nbrPR_withComments acc;
       totalComments := total |}
  else
    {| nbrPR_noComment := nbrPR_noComment acc;
       nbrPR_withComments := int_wrap (nbrPR_withComments acc + 1);
       totalComments := total |}.

(** The loop [for _, pr_line := range prList]. *)
Fixpoint performAction_loop (prList : list string) (isAppend : bool)
         (acc : Accounting) : M Accounting :=
  match prList with
  | [] => ret acc
  | pr_line :: rest =>
      nbrOfComments <-
        call_getCommenters pr_line isAppend (globalIsNoHeader g) (outputFileName g) ;;
      let acc' := account acc nbrOfComments in
      when (negb (isVerbose g))
        (failed <- call_bar_Add 1 ;;
         when failed
           (emit (EvLogPrintf
              ("Unexpected error updating progress bar (%v)" ++ nl)%string
              [VErr (Some ErrBar)]))) ;;
      performAction_loop rest isAppend acc'
  end.

(** The three lines of the summary, and their copy in the debug log. *)
Definition summaryLines (acc : Accounting) : list (string * list Value) :=
  [(("Nbr of PR without comments: %d" ++ nl)%string, [VInt (nbrPR_noComment acc)]);
   (("Nbr of PR with comments:    %d" ++ nl)%string, [VInt (nbrPR_withComments acc)]);
   (("Total comments:             %d" ++ nl)%string, [VInt (totalComments acc)])].

Definition report (acc : Accounting) : list Event :=
  map (fun l => EvPrintf (fst l) (snd l)) (summaryLines acc) ++
  (if isRootDebug g
   then map (fun l => EvDebugPrintf (fst l) (snd l)) (summaryLines acc)
   else []).

Definition emit_all (es : list Event) : M unit :=
  fun w => (Returned tt, w, es).

Definition couldNotLoadFormat : string :=
  ("Could not load " ++ dq ++ "%s" ++ dq ++ nl)%string.
Definition processingFormat : string :=
  ("Processing " ++ dq ++ "%s" ++ dq ++ nl)%string.

(** The step between the load and the quota check: the value of
    [isAppend] handed to the loop. *)
Definition prepareOutput : M bool :=
  if negb (globalIsAppend g) then
    exists_ <- call_fileExist (outputFileName g) ;;
    when exists_ (call_os_Remove (outputFileName g)) ;;
    ret true
  else ret (globalIsAppend g).

Definition performAction (inputFile : string) : M unit :=
  emit (EvPrintf processingFormat [VString inputFile]) ;;
  when (isRootDebug g) (emit (EvDebugPrintf processingFormat [VString inputFile])) ;;
  loaded <- loadPrListFile inputFile (isVerbose g) ;;
  let '(prList, result) := loaded in
  (if negb result then
     emit (EvPrintf couldNotLoadFormat [VString inputFile]) ;;
     os_Exit 1
   else ret tt) ;;
  isAppend <- prepareOutput ;;
  call_checkIfSufficientQuota (len prList) ;;
  when (negb (isVerbose g)) (call_progressbar_Default (len prList)) ;;
  acc <- performAction_loop prList isAppend
           {| nbrPR_noComment := 0; nbrPR_withComments := 0; totalComments := 0 |} ;;
  emit_all (report acc).

End Program.

Arguments validateHeader {World} header referenceHeader isVerbose.
Arguments validateHeader_range {World} i header referenceHeader isVerbose.

(** ** The command: [commentersCmd]

    The two functions of the command, [Args] and [Run], and the order in
    which cobra calls them: the arguments are validated first, and [Run] is
    called only when [Args] returned no error.  [initLoggers] and
    [get_quota_data_v4] are defined elsewhere; of the four results of the
    latter the command uses the first two, the limit and what remains. *)
(** The errors that [Args] returns: the one of [cobra.MinimumNArgs], with
    the number of arguments wanted and received, and its own. *)
Inductive ArgsError : Type :=
| TooFewArgs (wanted received : Z)
| InvalidFile.

Class CommandCollaborators (World : Type) : Type := {
  initLoggers : World -> World;
  get_quota_data_v4 : World -> (Z * Z) * World;
  (** What cobra prints when [Args] returns an error: the error and the
      usage text of the command, as the root command configures them. *)
  reportArgsError : ArgsError -> list Event
}.

Definition debugSessionLine : string :=
  ("******** New " ++ dq ++ "Get Commenters" ++ dq ++ " debug session ********" ++ nl)%string.
Definition debugEnabledText : string :=
  ("*** Debug mode enabled ***" ++ nl ++ "See " ++ dq ++ "debug.log" ++ dq
     ++ " for the trace" ++ nl ++ nl)%string.
Definition startQuotaFormat : string := ("Start quota: %d/%d" ++ nl)%string.
Definition endQuotaFormat : string := ("End quota: %d/%d" ++ nl)%string.

Section Command.

Context {World : Type} {C : Collaborators World} {D : CommandCollaborators World}.
Variable g : Globals.

Local Abbreviation M := (M World).

(** [cobra.MinimumNArgs(n)]. *)
Definition MinimumNArgs (n : Z) (args : list string) : option ArgsError :=
  if len args <? n then Some (TooFewArgs n (len args)) else None.

Definition commentersCmd_Args (args : list string) : M (option ArgsError) :=
  match MinimumNArgs 1 args with
  | Some err => ret (Some err)
  | None =>
      arg0 <- index args 0 ;;
      exists_ <- call_fileExist arg0 ;;
      if negb exists_ then ret (Some InvalidFile) else ret None
  end.

Definition call_initLoggers : M unit :=
  fun w => (Returned tt, initLoggers w, []).

Definition call_get_quota_data_v4 : M (Z * Z) :=
  fun w => let '(q, w') := get_quota_data_v4 w in (Returned q, w', []).

(** The quota line of the debug log: what remains, then the limit.  The
    texts that [Run] prints with [Println] and [Print] hold no verb; they
    are recorded as the [Printf] of the same text. *)
Definition logQuota (format : string) : M unit :=
  q <- call_get_quota_data_v4 ;;
  emit (EvDebugPrintf format [VInt (snd q); VInt (fst q)]).

Definition commentersCmd_Run (args : list string) : M unit :=
  call_initLoggers ;;
  when (isRootDebug g) (emit (EvDebugPrintf debugSessionLine [])) ;;
  (if isRootDebug g then
     emit (EvPrintf debugEnabledText []) ;;
     logQuota startQuotaFormat
   else ret tt) ;;
  arg0 <- index args 0 ;;
  performAction g arg0 ;;
  if isRootDebug g then logQuota endQuotaFormat else ret tt.

(** What cobra does with the command line: when [Args] returns an error
    it reports the error and does not call [Run]; otherwise it calls
    [Run]. *)
Definition commentersCmd_execute (args : list string) : M (option ArgsError) :=
  err <- commentersCmd_Args args ;;
  match err with
  | Some e => emit_all (reportArgsError e) ;; ret (Some e)
  | None => commentersCmd_Run args ;; ret None
  end.

End Command.

(** ** The quota guard *)

(** Modelled from the spec: [checkIfSufficientQuota] is defined outside of
    the file under study.  The spec gives its contract: it is handed the
    number of work items, compares the projected cost of processing them
    with the remaining quota, and terminates the process when the quota is
    insufficient.  The cost heuristic ([projectedCost]), the quota reading
    ([getQuota], giving the limit and what remains) and the exit status
    belong to the collaborator and are parameters. *)
Definition checkIfSufficientQuota_model {World : Type}
           (getQuota : World -> Z * Z) (projectedCost : Z -> Z) (exitStatus : Z)
           (workItemCount : Z) (w : World) : option Z * World :=
  let remaining := snd (getQuota w) in
  if remaining <? projectedCost workItemCount then (Some exitStatus, w) else (None, w).

(** ** Vocabulary of the statements *)

(** The row checks of [loadPrListFile], as one predicate on a record. *)
Definition valid_row {World : Type} {C : Collaborators World} (row : list string) : bool :=
  match row with
  | org :: prj :: prNbr :: _ =>
      isValidOrgFormat org
      && Regexp.MatchString prj_regexp (ToLower unicodeToLower prj)
      && Regexp.MatchString pr_regexp prNbr
  | _ => false
  end.

(** The canonical identifier of a record. *)
Definition work_item (row : list string) : string :=
  match row with
  | org :: prj :: prNbr :: _ => (org ++ "/" ++ prj ++ "/" ++ prNbr)%string
  | _ => EmptyString
  end.

(** The events of [fieldError]. *)
Definition diagnostic (g : Globals) (format field : string) (isVerbose : bool) : list Event :=
  (if isVerbose then [EvPrintf format [VString field]] else []) ++
  (if isRootDebug g then [EvDebugPrintf format [VString field]] else []).

(** The counts that the fetch collaborator returned during a run. *)
Fixpoint fetched (t : list Event) : list Z :=
  match t with
  | [] => []
  | EvGetCommenters _ _ _ _ n :: t' => n :: fetched t'
  | _ :: t' => fetched t'
  end.

Definition is_fetch (e : Event) : bool :=
  match e with EvGetCommenters _ _ _ _ _ => true | _ => false end.

Definition is_quota (e : Event) : bool :=
  match e with EvQuota _ => true | _ => false end.

(** The events that create, delete or write the output file. *)
Definition touches_output (e : Event) : bool :=
  match e with
  | EvRemove _ | EvGetCommenters _ _ _ _ _ => true
  | _ => false
  end.

(** The append argument of a fetch; [true] for any other event. *)
Definition fetch_appends (e : Event) : bool :=
  match e with EvGetCommenters _ isAppend _ _ _ => isAppend | _ => true end.

Definition count_zero (l : list Z) : Z := len (filter (fun n => n =? 0) l).
Definition count_nonzero (l : list Z) : Z := len (filter (fun n => negb (n =? 0)) l).
Definition sum (l : list Z) : Z := fold_right Z.add 0 l.

(** The characters of a project name, and of a number. *)
Definition is_digit (c : ascii) : bool := in_range "0"%char "9"%char c.
Definition is_word (c : ascii) : bool :=
  is_digit c || in_range "A"%char "Z"%char c || Ascii.eqb c "_"%char
  || in_range "a"%char "z"%char c.
Definition is_prj_char (c : ascii) : bool :=
  is_word c || Ascii.eqb c "-"%char || Ascii.eqb c "."%char.

Definition nonempty (s : string) : bool :=
  match s with EmptyString => false | String _ _ => true end.

(** The events that only print: on the standard output, in the log, in
    the debug log. *)
Definition is_message (e : Event) : bool :=
  match e with
  | EvPrintf _ _ | EvPrintln _ | EvLogPrintf _ _ | EvDebugPrintf _ _ => true
  | _ => false
  end.

(** [m] run from [w] returns a value satisfying [P], leaves the world as
    it was, and does nothing but print. *)
Definition returns {World A : Type} (m : M World A) (w : World) (P : A -> Prop) : Prop :=
  exists a t, m w = (Returned a, w, t) /\ forallb is_message t = true /\ P a.

(** Every field of [H] is the field of [S] at the same position. *)
Definition fieldwise_equal (H S : list string) : Prop :=
  forall i h s, nth_error H i = Some h -> nth_error S i = Some s -> h = s.

(** The events of the loop body on a record: the diagnostic of the first
    check that fails, in the order organisation, project, number. *)
Definition row_diagnostic {World : Type} {C : Collaborators World} (g : Globals)
           (row : list string) (isVerbose : bool) : list Event :=
  match row with
  | org :: prj :: prNbr :: _ =>
      if negb (isValidOrgFormat org) then diagnostic g orgErrorFormat org isVerbose
      else if negb (Regexp.MatchString prj_regexp (ToLower unicodeToLower prj))
      then diagnostic g prjErrorFormat prj isVerbose
      else if negb (Regexp.MatchString pr_regexp prNbr)
      then diagnostic g prErrorFormat prNbr isVerbose
      else []
  | _ => []
  end.

(** The events of the loop over the records: those of the first record
    that is rejected. *)
Fixpoint rows_diagnostic {World : Type} {C : Collaborators World} (g : Globals)
         (rows : list (list string)) (isVerbose : bool) : list Event :=
  match rows with
  | [] => []
  | row :: rest =>
      if valid_row row then rows_diagnostic g rest isVerbose
      else row_diagnostic g row isVerbose
  end.

(** A file as the reader sees it: a header line and data rows. *)
Definition csv_file (header : list string) (rows : list (list string)) : list csv.line :=
  csv.Fields header :: map csv.Fields rows.

(** What [performAction] prints before loading the file. *)
Definition prelude (g : Globals) (inputFile : string) : list Event :=
  EvPrintf processingFormat [VString inputFile] ::
  (if isRootDebug g then [EvDebugPrintf processingFormat [VString inputFile]] else []).

(** The world in which the quota is checked: the output file has been
    removed when the run does not append and the file existed. *)
Definition prepared_world {World : Type} {C : Collaborators World} (g : Globals)
           (w : World) : World :=
  if negb (globalIsAppend g) && fileExist (outputFileName g) w
  then os_Remove (outputFileName g) w else w.

Definition prepare_events {World : Type} {C : Collaborators World} (g : Globals)
           (w : World) : list Event :=
  if negb (globalIsAppend g) && fileExist (outputFileName g) w
  then [EvRemove (outputFileName g)] else [].

(** The counters before the first item. *)
Definition no_accounting : Accounting :=
  {| nbrPR_noComment := 0; nbrPR_withComments := 0; totalComments := 0 |}.

(** The values of Go's [int]. *)
Definition is_int (z : Z) : Prop := minInt <= z <= maxInt.

(** The arguments of the fetches of a run, in order: the work item, the
    append flag, the no-header flag and the output file. *)
Fixpoint fetch_calls (t : list Event) : list (string * bool * bool * string) :=
  match t with
  | [] => []
  | EvGetCommenters pr isAppend isNoHeader out _ :: t' =>
      (pr, isAppend, isNoHeader, out) :: fetch_calls t'
  | _ :: t' => fetch_calls t'
  end.

Definition is_remove (e : Event) : bool :=
  match e with EvRemove _ => true | _ => false end.

Definition is_bar (e : Event) : bool :=
  match e with EvBarDefault _ | EvBarAdd _ => true | _ => false end.

(** Whether the load of [performAction] reports success. *)
Definition load_succeeds {World : Type} {C : Collaborators World} (g : Globals)
           (inputFile : string) (w : World) : bool :=
  match outcome_of (loadPrListFile g inputFile (isVerbose g) w) with
  | Returned (_, result) => result
  | _ => false
  end.

(** The format of the diagnostic of [validateHeader] for a field. *)
Definition headerFieldFormat : string :=
  (" Error: not the expected header field at column %d (found "
     ++ dq ++ "%v" ++ dq ++ ", wanted " ++ dq ++ "%v" ++ dq ++ ")" ++ nl)%string.

(** What [Run] does before the batch, from the world [w]: the world in
    which the batch starts and the events produced. *)
Definition run_start {World : Type} {D : CommandCollaborators World} (g : Globals)
           (w : World) : World * list Event :=
  let w0 := initLoggers w in
  if isRootDebug g then
    let q := fst (get_quota_data_v4 w0) in
    (snd (get_quota_data_v4 w0),
     [EvDebugPrintf debugSessionLine [];
      EvPrintf debugEnabledText [];
      EvDebugPrintf startQuotaFormat [VInt (snd q); VInt (fst q)]])
  else (w0, []).

(** What [Run] does after a batch that returned, leaving the world [w]. *)
Definition run_end {World : Type} {D : CommandCollaborators World} (g : Globals)
           (w : World) : World * list Event :=
  if isRootDebug g then
    let q := fst (get_quota_data_v4 w) in
    (snd (get_quota_data_v4 w),
     [EvDebugPrintf endQuotaFormat [VInt (snd q); VInt (fst q)]])
  else (w, []).

(** ** A small world for the scenarios

    Files are an association list; the remote service answers the
    successive fetches with the counts of [answers] and has [remaining]
    calls left. *)
Module Demo.

Record World : Type := mkWorld {
  files : list (string * list csv.line);
  answers : list Z;
  remaining : Z
}.

Fixpoint lookup (name : string) (fs : list (string * list csv.line)) : option (list csv.line) :=
  match fs with
  | [] => None
  | (n, ls) :: rest => if String.eqb n name then Some ls else lookup name rest
  end.

Fixpoint remove (name : string) (fs : list (string * list csv.line)) :=
  match fs with
  | [] => []
  | (n, ls) :: rest => if String.eqb n name then remove name rest else (n, ls) :: remove name rest
  end.

Fixpoint append_line (name : string) (l : csv.line) (fs : list (string * list csv.line)) :=
  match fs with
  | [] => [(name, [l])]
  | (n, ls) :: rest =>
      if String.eqb n name then (n, ls ++ [l]) :: rest
      else (n, ls) :: append_line name l rest
  end.

Definition fetch (pr : string) (isAppend isNoHeader : bool) (out : string) (w : World)
  : Z * World :=
  let n := hd 0 (answers w) in
  (n, {| files := append_line out (csv.Fields [pr]) (files w);
         answers := tl (answers w);
         remaining := remaining w - 1 |}).

#[global] Instance collaborators : Collaborators World := {|
  os_Open name w := lookup name (files w);
  fileExist name w := match lookup name (files w) with Some _ => true | None => false end;
  os_Remove name w :=
    {| files := remove name (files w); answers := answers w; remaining := remaining w |};
  isValidOrgFormat org := nonempty org && string_forallb is_word org;
  unicodeToLower s := s;
  checkIfSufficientQuota :=
    checkIfSufficientQuota_model (fun w => (5000, remaining w)) (fun n => n) 1;
  getCommenters := fetch;
  progressbar_Default _ w := w;
  bar_Add _ w := (false, w)
|}.

Definition row (org prj nbr : string) : list string :=
  [org; prj; nbr; "https://example.org/pr"; "closed"; "2023-01-01"; "2023-01-02";
   "alice"; "2023-01"; "A change"].

Definition header_file : list csv.line := [csv.Fields referenceCSVheader].

Definition one_row_file : list csv.line :=
  [csv.Fields referenceCSVheader; csv.Fields (row "acme" "widget-api" "42")].

Definition three_row_file : list csv.line :=
  [csv.Fields referenceCSVheader;
   csv.Fields (row "acme" "widget-api" "42");
   csv.Fields (row "acme" "Widget.UI" "7");
   csv.Fields (row "jenkinsci" "jenkins" "1234")].

Definition bad_number_file : list csv.line :=
  [csv.Fields referenceCSVheader;
   csv.Fields (row "acme" "widget-api" "42");
   csv.Fields (row "acme" "widget-api" "4a2");
   csv.Fields (row "jenkinsci" "jenkins" "1234")].

Definition bad_project_file : list csv.line :=
  [csv.Fields referenceCSVheader;
   csv.Fields (row "acme" "widget api" "42");
   csv.Fields (row "jenkinsci" "jenkins" "1234")].

(** The header without its [url] column. *)
Definition missing_column_file : list csv.line :=
  [csv.Fields ["org"; "repository"; "number"; "state"; "created_at"; "merged_at";
               "user.login"; "month_year"; "title"];
   csv.Fields ["acme"; "widget-api"; "42"; "closed"; "2023-01-01"; "2023-01-02";
               "alice"; "2023-01"; "A change"]].

Definition world : World :=
  {| files := [("header.csv", header_file); ("one.csv", one_row_file);
               ("three.csv", three_row_file); ("bad_number.csv", bad_number_file);
               ("bad_project.csv", bad_project_file);
               ("missing.csv", missing_column_file);
               ("out.csv", [csv.Fields ["old"]])];
     answers := [0; 3; 0];
     remaining := 100 |}.

Definition starved_world : World :=
  {| files := files world; answers := answers world; remaining := 2 |}.

Definition quiet : Globals :=
  {| isVerbose := false; isRootDebug := false; globalIsAppend := false;
     globalIsNoHeader := false; outputFileName := "out.csv" |}.

Definition verbose : Globals :=
  {| isVerbose := true; isRootDebug := true; globalIsAppend := true;
     globalIsNoHeader := false; outputFileName := "out.csv" |}.

End Demo.

(** The loggers and the quota reading of the small world. *)
Module DemoCommand.

(** The text of an error of [Args]. *)
Definition message (e : ArgsError) : string :=
  match e with
  | TooFewArgs _ _ => "requires at least 1 arg(s), only received 0"
  | InvalidFile => ("Invalid file" ++ nl)%string
  end.

#[global] Instance command : CommandCollaborators Demo.World := {|
  initLoggers w := w;
  get_quota_data_v4 w := ((5000, Demo.remaining w), w);
  reportArgsError e :=
    [EvLogPrintf ("Error: %s" ++ nl)%string [VString (message e)];
     EvPrintf ("%s" ++ nl)%string
       [VString ("Usage:" ++ nl ++ "  commenters [PR list CSV filename] [flags]")%string]]
|}.

(** Quiet on the standard output, with the debug log. *)
Definition debug : Globals :=
  {| isVerbose := false; isRootDebug := true; globalIsAppend := false;
     globalIsNoHeader := false; outputFileName := "out.csv" |}.

(** A file whose second record has two fields. *)
Definition short_record_file : list csv.line :=
  csv.Fields referenceCSVheader
    :: map csv.Fields [Demo.row "acme" "widget-api" "42"]
         ++ csv.Fields ["acme"; "widget-api"] :: [].

Definition short_record_world : Demo.World :=
  {| Demo.files := [("short.csv", short_record_file)];
     Demo.answers := []; Demo.remaining := 0 |}.

End DemoCommand.

(** * Properties *)

(** ** The two patterns *)

Lemma in_range_same (x c : ascii) : in_range x x c = Ascii.eqb c x.
Proof.
  unfold in_range, byte_le.
  destruct (Ascii.eqb_spec c x) as [->|Hne].
  - now rewrite Nat.leb_refl.
  - apply andb_false_iff.
    destruct (Nat.leb_spec (nat_of_ascii x) (nat_of_ascii c)) as [H1|H1]; [right|now left].
    apply Nat.leb_gt.
    assert (nat_of_ascii c <> nat_of_ascii x) as H2.
    { intro E. apply Hne. rewrite <- (ascii_nat_embedding c), E. apply ascii_nat_embedding. }
    lia.
Qed.

Lemma in_class_perl_d (c : ascii) : Regexp.in_class Regexp.perl_d c = is_digit c.
Proof. unfold Regexp.in_class, Regexp.perl_d, is_digit; simpl. apply orb_false_r. Qed.

Lemma in_class_prj (c : ascii) :
  Regexp.in_class (Regexp.perl_w ++ [("-"%char, "-"%char); ("."%char, "."%char)]) c
  = is_prj_char c.
Proof.
  unfold Regexp.in_class, Regexp.perl_w, is_prj_char, is_word, is_digit.
  cbn [app existsb fst snd].
  rewrite !in_range_same, orb_false_r.
  now rewrite !orb_assoc.
Qed.

Lemma string_forallb_ext (p q : ascii -> bool) (s : string) :
  (forall c, p c = q c) -> string_forallb p s = string_forallb q s.
Proof. intros E. induction s as [|c s IH]; simpl; [reflexivity|]. now rewrite E, IH. Qed.

(** Iterating a class up to the end of the text: every byte must be in
    the class, and there must be at least one. *)
Lemma plus_class_to_end (cls : list (ascii * ascii)) :
  forall (t : string) (fuel : nat) (bot : bool),
    (String.length t < fuel)%nat ->
    Regexp.plus_loop (Regexp.matchk (Regexp.CharClass cls))
      (fun bot' s' => Regexp.matchk Regexp.EndText bot' s' (fun _ _ => true))
      fuel bot t
    = nonempty t && string_forallb (Regexp.in_class cls) t.
Proof.
  induction t as [|c t IH]; intros fuel bot Hfuel.
  - destruct fuel; [inversion Hfuel|reflexivity].
  - destruct fuel as [|fuel]; [inversion Hfuel|].
    cbn [Regexp.plus_loop Regexp.matchk nonempty string_forallb String.length andb].
    assert ((String.length t <? S (String.length t))%nat = true) as ->
        by (apply Nat.ltb_lt; lia).
    destruct (Regexp.in_class cls c); [cbn [andb]|reflexivity].
    rewrite IH by (simpl in Hfuel; lia).
    destruct t; reflexivity.
Qed.

Lemma search_anchored_later (r : Regexp.syntax) (s : string) :
  Regexp.search (Regexp.Concat Regexp.BeginText r) false s = false.
Proof. induction s as [|c s IH]; cbn; [reflexivity|exact IH]. Qed.

(** A pattern [^[cls]+$] matches exactly the non-empty strings made of
    bytes of the class. *)
Lemma MatchString_anchored_class (cls : list (ascii * ascii)) (s : string) :
  Regexp.MatchString
    (Regexp.Concat Regexp.BeginText
       (Regexp.Concat (Regexp.Plus (Regexp.CharClass cls)) Regexp.EndText)) s
  = nonempty s && string_forallb (Regexp.in_class cls) s.
Proof.
  unfold Regexp.MatchString.
  destruct s as [|c s].
  - reflexivity.
  - cbn [Regexp.search]. rewrite search_anchored_later, orb_false_r.
    cbn [Regexp.matchk andb].
    apply plus_class_to_end. lia.
Qed.

Lemma pr_regexp_digits (s : string) :
  Regexp.MatchString pr_regexp s = nonempty s && string_forallb is_digit s.
Proof.
  unfold pr_regexp. rewrite MatchString_anchored_class.
  f_equal. apply string_forallb_ext, in_class_perl_d.
Qed.

Lemma prj_regexp_chars (s : string) :
  Regexp.MatchString prj_regexp s = nonempty s && string_forallb is_prj_char s.
Proof.
  unfold prj_regexp. rewrite MatchString_anchored_class.
  f_equal. apply string_forallb_ext, in_class_prj.
Qed.

Example pr_regexp_42 : Regexp.MatchString pr_regexp "42" = true.
Proof. reflexivity. Qed.

Example pr_regexp_rejects :
  map (Regexp.MatchString pr_regexp) ["12a"; "-5"; EmptyString; "4a2"; " 7"; "7 "]
  = [false; false; false; false; false; false].
Proof. reflexivity. Qed.

Example prj_regexp_accepts :
  map (fun s => Regexp.MatchString prj_regexp (ToLower (fun x => x) s))
      ["widget-api"; "Widget.UI"; "a_b"; ".github"]
  = [true; true; true; true].
Proof. reflexivity. Qed.

Example prj_regexp_rejects :
  map (fun s => Regexp.MatchString prj_regexp (ToLower (fun x => x) s))
      ["widget api"; EmptyString; "a/b"; "a,b"]
  = [false; false; false; false].
Proof. reflexivity. Qed.

Lemma append_empty (s : string) : (s ++ EmptyString)%string = s.
Proof. induction s as [|c s IH]; simpl; [reflexivity|now rewrite IH]. Qed.

Lemma Sprintf_work_item (org prj prNbr : string) (rest : list string) :
  Sprintf "%s/%s/%s" [org; prj; prNbr] = work_item (org :: prj :: prNbr :: rest).
Proof. cbn. now rewrite append_empty. Qed.

(** ** Reasoning about runs *)

Section Runs.

Context {World : Type}.

(** The run of [m] followed by the run of [f] on its value. *)
Lemma bind_step {A B : Type} (m : M World A) (f : A -> M World B)
      (w w1 w2 : World) (a : A) (o : Outcome B) (t t1 t2 : list Event) :
  m w = (Returned a, w1, t1) ->
  f a w1 = (o, w2, t2) ->
  t = t1 ++ t2 ->
  bind m f w = (o, w2, t).
Proof. intros Hm Hf ->. unfold bind. now rewrite Hm, Hf. Qed.

Lemma emit_run (e : Event) (w : World) : emit e w = (Returned tt, w, [e]).
Proof. reflexivity. Qed.

Lemma when_emit_run (b : bool) (e : Event) (w : World) :
  when b (emit e) w = (Returned tt, w, if b then [e] else []).
Proof. now destruct b. Qed.

(** Runs that only read and print. *)

Lemma returns_ret {A : Type} (a : A) (w : World) (P : A -> Prop) :
  P a -> returns (ret a) w P.
Proof. intros H. exists a, []. repeat split. exact H. Qed.

Lemma returns_bind {A B : Type} (m : M World A) (f : A -> M World B) (w : World)
      (P : A -> Prop) (Q : B -> Prop) :
  returns m w P -> (forall a, P a -> returns (f a) w Q) -> returns (bind m f) w Q.
Proof.
  intros (a & t1 & Hm & Ht1 & Ha) Hf.
  destruct (Hf a Ha) as (b & t2 & Hfa & Ht2 & Hb).
  exists b, (t1 ++ t2). repeat split; [|now rewrite forallb_app, Ht1, Ht2|exact Hb].
  unfold bind. now rewrite Hm, Hfa.
Qed.

Lemma returns_weaken {A : Type} (m : M World A) (w : World) (P Q : A -> Prop) :
  returns m w P -> (forall a, P a -> Q a) -> returns m w Q.
Proof. intros (a & t & Hm & Ht & Ha) H. exists a, t. auto. Qed.

Lemma returns_of_run {A : Type} (m : M World A) (w : World) (a : A) (t : list Event)
      (P : A -> Prop) :
  m w = (Returned a, w, t) -> forallb is_message t = true -> P a -> returns m w P.
Proof. intros Hm Ht Ha. now exists a, t. Qed.

Lemma returns_emit (e : Event) (w : World) :
  is_message e = true -> returns (emit e) w (fun _ => True).
Proof. intros He. exists tt, [e]. repeat split. cbn. now rewrite He. Qed.

Lemma returns_when (b : bool) (m : M World unit) (w : World) :
  returns m w (fun _ => True) -> returns (when b m) w (fun _ => True).
Proof. destruct b; [trivial|]. intros _. now apply returns_ret. Qed.

Lemma returns_index {A : Type} (l : list A) (i : nat) (w : World) :
  (i < length l)%nat -> returns (index l i) w (fun x => nth_error l i = Some x).
Proof.
  intros Hi. unfold index.
  destruct (nth_error l i) as [x|] eqn:E.
  - now apply returns_ret.
  - apply nth_error_None in E. lia.
Qed.

End Runs.

(** ** [validateHeader] *)

Lemma validateHeader_range_returns {World : Type} (referenceHeader : list string)
      (isVerbose : bool) (w : World) :
  forall (header : list string) (i : nat),
    (i + length header = length referenceHeader)%nat ->
    returns (validateHeader_range i header referenceHeader isVerbose) w
      (fun b => b = true <->
                forall j h s, nth_error header j = Some h ->
                              nth_error referenceHeader (i + j) = Some s -> h = s).
Proof.
  induction header as [|v rest IH]; intros i Hlen.
  - apply returns_ret. split; [|reflexivity].
    intros _ j h s Hj. destruct j; discriminate Hj.
  - cbn [validateHeader_range]. simpl in Hlen.
    eapply returns_bind; [apply returns_index; lia|].
    cbn beta. intros ref_i Href.
    destruct (String.eqb_spec v ref_i) as [->|Hne]; cbn [negb].
    + eapply returns_weaken; [apply (IH (S i)); lia|].
      cbn beta. intros b [Hb1 Hb2]. split.
      * intros Hb [|j] h s Hh Hs.
        -- rewrite Nat.add_0_r in Hs. simpl in Hh. congruence.
        -- simpl in Hh. rewrite Nat.add_succ_r in Hs. now apply (Hb1 Hb j).
      * intros Hall. apply Hb2. intros j h s Hh Hs.
        apply (Hall (S j)); [exact Hh|]. now rewrite Nat.add_succ_r.
    + eapply returns_bind; [apply returns_when, returns_emit; reflexivity|].
      intros _ _. apply returns_ret. split; [discriminate|].
      intros Hall. exfalso. apply Hne.
      apply (Hall 0%nat); [reflexivity|]. now rewrite Nat.add_0_r.
Qed.

Lemma validateHeader_returns {World : Type} (header referenceHeader : list string)
      (isVerbose : bool) (w : World) :
  returns (validateHeader header referenceHeader isVerbose) w
    (fun b => b = true <->
              length header = length referenceHeader /\
              fieldwise_equal header referenceHeader).
Proof.
  unfold validateHeader, len.
  destruct (Z.eqb_spec (Z.of_nat (length header)) (Z.of_nat (length referenceHeader)))
    as [E|E]; cbn [negb].
  - apply Nat2Z.inj in E.
    eapply returns_weaken;
      [apply (validateHeader_range_returns referenceHeader isVerbose w header 0%nat E)|].
    cbn beta. intros b Hb. rewrite Hb. unfold fieldwise_equal. cbn [Nat.add]. tauto.
  - eapply returns_bind; [apply returns_when, returns_emit; reflexivity|].
    intros _ _. apply returns_ret. split; [discriminate|].
    intros [Hlen _]. exfalso. apply E. now rewrite Hlen.
Qed.

(** C2. For every header [H] and reference schema [S], [validateHeader]
    returns, and it returns [true] if and only if [H] has as many fields
    as [S] and every field of [H] is equal, byte for byte, to the field of
    [S] at the same position. *)
Theorem validateHeader_true_iff {World : Type} (H S : list string)
        (isVerbose : bool) (w : World) :
  exists (b : bool) (t : list Event),
    validateHeader H S isVerbose w = (Returned b, w, t) /\
    (b = true <->
     length H = length S /\
     forall i h s, nth_error H i = Some h -> nth_error S i = Some s -> h = s).
Proof.
  destruct (validateHeader_returns H S isVerbose w) as (b & t & Hrun & _ & Hb).
  exists b, t. split; [exact Hrun|exact Hb].
Qed.

Lemma fieldwise_equal_eq (H R : list string) :
  length H = length R -> fieldwise_equal H R -> H = R.
Proof.
  revert R. induction H as [|h H IH]; intros [|r R] Hlen Hall; try discriminate Hlen.
  - reflexivity.
  - f_equal.
    + apply (Hall 0%nat); reflexivity.
    + apply IH; [now injection Hlen|].
      intros i x y Hx Hy. apply (Hall (Datatypes.S i)); assumption.
Qed.

Lemma validateHeader_returns_eq {World : Type} (header referenceHeader : list string)
      (isVerbose : bool) (w : World) :
  returns (validateHeader header referenceHeader isVerbose) w
    (fun b => b = true <-> header = referenceHeader).
Proof.
  eapply returns_weaken; [apply validateHeader_returns|].
  cbn beta. intros b Hb. rewrite Hb. split.
  - intros [Hlen Hall]. now apply fieldwise_equal_eq.
  - intros ->. split; [reflexivity|]. intros i h s Hh Hs. congruence.
Qed.

(** ** The reader *)

Lemma ReadAll_from_ok (fpr : Z) :
  0 < fpr ->
  forall (rows acc : list (list string)),
    Forall (fun row => len row = fpr) rows ->
    csv.ReadAll_from (map csv.Fields rows) fpr acc
    = ({| csv.input := []; csv.FieldsPerRecord := fpr |}, acc ++ rows, None).
Proof.
  intros Hpos. induction rows as [|row rows IH]; intros acc Hall.
  - cbn. now rewrite app_nil_r.
  - inversion Hall as [|? ? Hrow Hrows]; subst.
    cbn [map csv.ReadAll_from csv.readLine].
    assert ((0 <? len row) = true) as -> by (apply Z.ltb_lt; lia).
    rewrite Z.eqb_refl. cbn [negb].
    rewrite IH by assumption. now rewrite <- app_assoc.
Qed.

Lemma ReadAll_from_inv (fpr : Z) :
  0 < fpr ->
  forall (ls : list csv.line) (acc records : list (list string)) (r : csv.Reader),
    csv.ReadAll_from ls fpr acc = (r, records, None) ->
    exists rows, ls = map csv.Fields rows /\
                 Forall (fun row => len row = fpr) rows /\
                 records = acc ++ rows.
Proof.
  intros Hpos. induction ls as [|l ls IH]; intros acc records r Hrun.
  - cbn in Hrun. injection Hrun as _ <-. exists []. now rewrite app_nil_r.
  - cbn [csv.ReadAll_from] in Hrun.
    destruct l as [fs|]; cbn [csv.readLine] in Hrun; [|discriminate Hrun].
    assert ((0 <? fpr) = true) as Hlt by (apply Z.ltb_lt; lia).
    rewrite Hlt in Hrun.
    destruct (Z.eqb_spec (len fs) fpr) as [E|E]; cbn [negb] in Hrun;
      [|discriminate Hrun].
    destruct (IH _ _ _ Hrun) as (rows & -> & Hall & ->).
    exists (fs :: rows). repeat split.
    + now constructor.
    + now rewrite <- app_assoc.
Qed.

(** ** The loop over the records *)

Section Load.

Context {World : Type} {C : Collaborators World}.
Variable g : Globals.

Lemma fieldError_run (format field : string) (isVerbose : bool) (w : World) :
  fieldError g format field isVerbose w
  = (Returned tt, w, diagnostic g format field isVerbose).
Proof.
  unfold fieldError, diagnostic, when, bind, emit, ret.
  now destruct isVerbose, (isRootDebug g).
Qed.

Lemma loadPrListFile_body_run (org prj prNbr : string) (rest : list string)
      (isVerbose : bool) (w : World) :
  let row := org :: prj :: prNbr :: rest in
  loadPrListFile_body g row isVerbose w
  = (Returned (if valid_row row then Some (work_item row) else None), w,
     row_diagnostic g row isVerbose).
Proof.
  intros row. subst row.
  unfold loadPrListFile_body, row_diagnostic, valid_row.
  unfold index. cbn [nth_error].
  unfold bind at 1. cbn [ret].
  destruct (isValidOrgFormat org); cbn [negb andb].
  2: { unfold bind. rewrite fieldError_run. cbn [ret]. now rewrite app_nil_r. }
  unfold bind at 1. cbn [ret].
  destruct (Regexp.MatchString prj_regexp (ToLower unicodeToLower prj)); cbn [negb andb].
  2: { unfold bind. rewrite fieldError_run. cbn [ret]. now rewrite app_nil_r. }
  unfold bind at 1. cbn [ret].
  destruct (Regexp.MatchString pr_regexp prNbr); cbn [negb andb].
  2: { unfold bind. rewrite fieldError_run. cbn [ret]. now rewrite app_nil_r. }
  now rewrite (Sprintf_work_item org prj prNbr rest).
Qed.

Lemma three_fields (row : list string) :
  (3 <= length row)%nat -> exists org prj prNbr rest, row = org :: prj :: prNbr :: rest.
Proof.
  destruct row as [|org [|prj [|prNbr rest]]]; simpl; try lia.
  intros _. now exists org, prj, prNbr, rest.
Qed.

Lemma loadPrListFile_loop_run (isVerbose : bool) (w : World) :
  forall (records : list (list string)) (prList : list string),
    Forall (fun row => (3 <= length row)%nat) records ->
    loadPrListFile_loop g records prList isVerbose w
    = (Returned (if forallb valid_row records
                 then Some (prList ++ map work_item records) else None),
       w, rows_diagnostic g records isVerbose).
Proof.
  induction records as [|row records IH]; intros prList Hall.
  - cbn. now rewrite app_nil_r.
  - inversion Hall as [|? ? Hrow Hrows]; subst.
    destruct (three_fields row Hrow) as (org & prj & prNbr & rest & ->).
    cbn [loadPrListFile_loop forallb rows_diagnostic map].
    pose proof (loadPrListFile_body_run org prj prNbr rest isVerbose w) as Hbody.
    cbn zeta in Hbody.
    destruct (valid_row (org :: prj :: prNbr :: rest)) eqn:Hvalid; cbn [andb].
    + assert (row_diagnostic g (org :: prj :: prNbr :: rest) isVerbose = []) as Hnil.
      { unfold row_diagnostic, valid_row in *.
        destruct (isValidOrgFormat org); [|discriminate Hvalid].
        destruct (Regexp.MatchString prj_regexp _); [|discriminate Hvalid].
        destruct (Regexp.MatchString pr_regexp _); [reflexivity|discriminate Hvalid]. }
      rewrite Hnil in Hbody.
      eapply bind_step; [exact Hbody| |reflexivity].
      cbn beta iota. rewrite IH by assumption. now rewrite <- app_assoc.
    + eapply bind_step; [exact Hbody|reflexivity|now rewrite app_nil_r].
Qed.

(** ** [loadPrListFile] on whole files *)

Lemma validateHeader_reference_run (isVerbose : bool) (w : World) :
  validateHeader referenceCSVheader referenceCSVheader isVerbose w = (Returned true, w, []).
Proof. reflexivity. Qed.

Lemma call_os_Open_run (fileName : string) (w : World) :
  call_os_Open fileName w = (Returned (os_Open fileName w), w, []).
Proof. reflexivity. Qed.

Lemma ReadAll_rows (rows : list (list string)) :
  Forall (fun row => length row = 10%nat) rows ->
  csv.ReadAll {| csv.input := map csv.Fields rows; csv.FieldsPerRecord := 10 |}
  = ({| csv.input := []; csv.FieldsPerRecord := 10 |}, rows, None).
Proof.
  intros Hall. unfold csv.ReadAll. cbn [csv.input csv.FieldsPerRecord].
  rewrite ReadAll_from_ok; [reflexivity|lia|].
  eapply Forall_impl; [|exact Hall]. cbn beta. unfold len. intros row ->. reflexivity.
Qed.

Lemma loadPrListFile_few_rows (fileName : string) (isVerbose : bool) (w : World)
      (rows : list (list string)) :
  os_Open fileName w = Some (csv_file referenceCSVheader rows) ->
  Forall (fun row => length row = 10%nat) rows ->
  (length rows < 2)%nat ->
  loadPrListFile g fileName isVerbose w
  = (Returned ([], false), w,
     (if isVerbose
      then [EvPrintln "Checking input file";
            EvPrintf ("  - Header is correct" ++ nl)%string []]
      else []) ++ [EvPrintf noDataMessage []]).
Proof.
  intros Hopen Hall Hlen.
  unfold loadPrListFile.
  eapply bind_step; [apply call_os_Open_run| |].
  - rewrite Hopen. unfold csv_file.
    cbn [csv.NewReader csv.Read csv.input csv.FieldsPerRecord csv.readLine].
    change (len referenceCSVheader) with 10. cbn [Z.ltb Z.eqb Z.compare].
    eapply bind_step; [apply when_emit_run| |reflexivity].
    eapply bind_step; [apply validateHeader_reference_run| |reflexivity].
    cbn [negb].
    eapply bind_step; [apply when_emit_run| |reflexivity].
    rewrite (ReadAll_rows rows Hall).
    assert ((len rows <? 2) = true) as -> by (apply Z.ltb_lt; unfold len; lia).
    eapply bind_step; [reflexivity|reflexivity|reflexivity].
  - now destruct isVerbose.
Qed.

Lemma loadPrListFile_rows (fileName : string) (isVerbose : bool) (w : World)
      (rows : list (list string)) :
  os_Open fileName w = Some (csv_file referenceCSVheader rows) ->
  Forall (fun row => length row = 10%nat) rows ->
  (2 <= length rows)%nat ->
  loadPrListFile g fileName isVerbose w
  = (Returned (if forallb valid_row rows then (map work_item rows, true) else ([], false)),
     w,
     (if isVerbose
      then [EvPrintln "Checking input file";
            EvPrintf ("  - Header is correct" ++ nl)%string [];
            EvPrintln "  - At least one Pull Request data available"]
      else []) ++
     rows_diagnostic g rows isVerbose ++
     (if (forallb valid_row rows && isVerbose)%bool
      then [EvPrintf
              ("Successfully loaded " ++ dq ++ "%s" ++ dq
                 ++ " (%d Pull Request to analyze)" ++ nl ++ nl)%string
              [VString fileName; VInt (len (map work_item rows))]]
      else [])).
Proof.
  intros Hopen Hall Hlen.
  assert (Forall (fun row => (3 <= length row)%nat) rows) as Hall3
      by (eapply Forall_impl; [|exact Hall]; cbn beta; intros row ->; lia).
  assert ((len rows <? 2) = false) as Hlen2 by (apply Z.ltb_ge; unfold len; lia).
  pose proof (loadPrListFile_loop_run isVerbose w rows [] Hall3) as Hloop.
  match goal with |- _ = (?o, _, ?T) =>
    enough (exists t, loadPrListFile g fileName isVerbose w = (o, w, t) /\ t = T)
      as (t & -> & ->) by reflexivity
  end.
  unfold loadPrListFile.
  destruct (forallb valid_row rows); eexists; (split; [|shelve]).
  all: (eapply bind_step; [apply call_os_Open_run| |reflexivity]).
  all: rewrite Hopen; unfold csv_file;
    cbn [csv.NewReader csv.Read csv.input csv.FieldsPerRecord csv.readLine];
    change (len referenceCSVheader) with 10; cbn [Z.ltb Z.eqb Z.compare].
  all: (eapply bind_step; [apply when_emit_run| |reflexivity]).
  all: (eapply bind_step; [apply validateHeader_reference_run| |reflexivity]).
  all: cbn [negb].
  all: (eapply bind_step; [apply when_emit_run| |reflexivity]).
  all: rewrite (ReadAll_rows rows Hall), Hlen2.
  all: (eapply bind_step; [apply when_emit_run| |reflexivity]).
  all: (eapply bind_step; [exact Hloop| |reflexivity]).
  - cbn [app]. eapply bind_step; [apply when_emit_run|reflexivity|reflexivity].
  - reflexivity.
  Unshelve.
  all: destruct isVerbose; cbn [andb app]; rewrite ?app_nil_r; reflexivity.
Qed.

Lemma diagnostic_messages (format field : string) (isVerbose : bool) :
  forallb is_message (diagnostic g format field isVerbose) = true.
Proof. unfold diagnostic. now destruct isVerbose, (isRootDebug g). Qed.

Lemma row_diagnostic_messages (row : list string) (isVerbose : bool) :
  forallb is_message (row_diagnostic g row isVerbose) = true.
Proof.
  unfold row_diagnostic.
  destruct row as [|org [|prj [|prNbr rest]]]; try reflexivity.
  repeat match goal with |- context [if ?b then _ else _] => destruct b end;
    try reflexivity; apply diagnostic_messages.
Qed.

Lemma rows_diagnostic_messages (rows : list (list string)) (isVerbose : bool) :
  forallb is_message (rows_diagnostic g rows isVerbose) = true.
Proof.
  induction rows as [|row rows IH]; [reflexivity|]. cbn [rows_diagnostic].
  destruct (valid_row row); [exact IH|apply row_diagnostic_messages].
Qed.

(** [loadPrListFile] always returns and never changes the world; when it
    reports success the file is a reference header followed by at least
    two records of ten fields, all valid, and the list is their work
    items in order. *)
Lemma loadPrListFile_returns (fileName : string) (isVerbose : bool) (w : World) :
  returns (loadPrListFile g fileName isVerbose) w
    (fun r =>
       (snd r = false -> fst r = []) /\
       (snd r = true ->
        exists rows,
          os_Open fileName w = Some (csv_file referenceCSVheader rows) /\
          Forall (fun row => length row = 10%nat) rows /\
          (2 <= length rows)%nat /\
          forallb valid_row rows = true /\
          fst r = map work_item rows)).
Proof.
  unfold loadPrListFile.
  eapply (returns_bind _ _ _ (fun o => o = os_Open fileName w));
    [eapply returns_of_run; [apply call_os_Open_run|reflexivity|reflexivity]|].
  cbn beta. intros o ->.
  destruct (os_Open fileName w) as [lines|] eqn:Hopen.
  2: { eapply returns_bind; [apply returns_emit; reflexivity|]. intros _ _. apply returns_ret.
       cbn. split; [reflexivity|discriminate]. }
  destruct lines as [|[hdr|] rest];
    cbn [csv.NewReader csv.Read csv.input csv.FieldsPerRecord csv.readLine].
  1, 3: eapply returns_bind; [apply returns_emit; reflexivity|]; intros _ _; apply returns_ret;
    cbn; split; [reflexivity|discriminate].
  cbn [Z.ltb Z.eqb Z.compare].
  eapply returns_bind; [apply returns_when, returns_emit; reflexivity|]. intros _ _.
  eapply returns_bind; [apply validateHeader_returns_eq|]. cbn beta.
  intros ok Hok. destruct ok; cbn [negb].
  2: { eapply returns_bind; [apply returns_emit; reflexivity|]. intros _ _. apply returns_ret.
       cbn. split; [reflexivity|discriminate]. }
  assert (hdr = referenceCSVheader) as -> by now apply Hok.
  change (len referenceCSVheader) with 10.
  eapply returns_bind; [apply returns_when, returns_emit; reflexivity|]. intros _ _.
  destruct (csv.ReadAll {| csv.input := rest; csv.FieldsPerRecord := 10 |})
    as [[r records] [e|]] eqn:HR.
  { eapply returns_bind; [apply returns_emit; reflexivity|]. intros _ _. apply returns_ret.
    cbn. split; [reflexivity|discriminate]. }
  unfold csv.ReadAll in HR. cbn [csv.input csv.FieldsPerRecord] in HR.
  apply ReadAll_from_inv in HR; [|lia].
  destruct HR as (rows & -> & Hall & ->). cbn [app].
  assert (Forall (fun row => length row = 10%nat) rows) as Hall10.
  { eapply Forall_impl; [|exact Hall]. cbn beta. unfold len. intros row Hrow. lia. }
  destruct (Z.ltb_spec (len rows) 2) as [Hlt|Hge].
  { eapply returns_bind; [apply returns_emit; reflexivity|]. intros _ _. apply returns_ret.
    cbn. split; [reflexivity|discriminate]. }
  eapply returns_bind; [apply returns_when, returns_emit; reflexivity|]. intros _ _.
  eapply (returns_bind _ _ _
            (fun res => res = if forallb valid_row rows
                              then Some ([] ++ map work_item rows) else None)).
  { eapply returns_of_run;
      [apply loadPrListFile_loop_run|apply rows_diagnostic_messages|reflexivity].
    eapply Forall_impl; [|exact Hall10]. cbn beta. intros row ->. lia. }
  cbn beta. intros res ->.
  destruct (forallb valid_row rows) eqn:Hvalid.
  - eapply returns_bind; [apply returns_when, returns_emit; reflexivity|]. intros _ _.
    apply returns_ret. cbn [fst snd app]. split; [discriminate|]. intros _.
    exists rows. repeat split; try assumption. unfold len in Hge. lia.
  - apply returns_ret. cbn. split; [reflexivity|discriminate].
Qed.

Lemma loadPrListFile_invalid_row (fileName : string) (isVerbose : bool) (w : World)
      (lines : list csv.line) (row : list string) :
  os_Open fileName w = Some lines ->
  In (csv.Fields row) (tl lines) ->
  valid_row row = false ->
  exists t, loadPrListFile g fileName isVerbose w = (Returned ([], false), w, t).
Proof.
  intros Hopen Hin Hbad.
  destruct (loadPrListFile_returns fileName isVerbose w)
    as ([prList b] & t & Hrun & _ & Hfalse & Htrue).
  cbn [fst snd] in *. destruct b.
  - exfalso.
    destruct (Htrue eq_refl) as (rows & Hopen' & _ & _ & Hvalid & _).
    rewrite Hopen in Hopen'. injection Hopen' as ->.
    cbn [csv_file tl] in Hin. apply in_map_iff in Hin.
    destruct Hin as (row' & Hrow' & Hin). injection Hrow' as ->.
    rewrite forallb_forall in Hvalid. rewrite (Hvalid row Hin) in Hbad. discriminate Hbad.
  - exists t. now rewrite <- (Hfalse eq_refl).
Qed.

End Load.

(** ** The claims about [loadPrListFile] *)

(** A valid file of two records or more loads: the list has one item per
    record, in file order, each the identifier of its record. *)
Theorem loadPrListFile_valid_file {World : Type} {C : Collaborators World}
        (g : Globals) (fileName : string) (isVerbose : bool) (w : World)
        (rows : list (list string)) :
  os_Open fileName w = Some (csv_file referenceCSVheader rows) ->
  Forall (fun row => length row = 10%nat) rows ->
  forallb valid_row rows = true ->
  (2 <= length rows)%nat ->
  exists t,
    loadPrListFile g fileName isVerbose w = (Returned (map work_item rows, true), w, t) /\
    length (map work_item rows) = length rows /\
    forall i row, nth_error rows i = Some row ->
                  nth_error (map work_item rows) i = Some (work_item row).
Proof.
  intros Hopen Hall Hvalid Hlen.
  rewrite (loadPrListFile_rows g fileName isVerbose w rows Hopen Hall Hlen), Hvalid.
  eexists. split; [reflexivity|]. split; [apply length_map|].
  intros i row Hrow. now rewrite nth_error_map, Hrow.
Qed.

(** C1 (the code departs from the claim).  A file with the reference
    header and exactly one data row, valid in its three checked fields, is
    rejected: [ReadAll] returns the records after the header, and the code
    asks for two of them.  Here the row is [acme,widget-api,42,...], whose
    work item would be [acme/widget-api/42]. *)
Theorem single_row_file_is_rejected :
  os_Open "one.csv" Demo.world
  = Some (csv_file referenceCSVheader [Demo.row "acme" "widget-api" "42"]) /\
  valid_row (Demo.row "acme" "widget-api" "42") = true /\
  work_item (Demo.row "acme" "widget-api" "42") = "acme/widget-api/42" /\
  loadPrListFile Demo.quiet "one.csv" false Demo.world
  = (Returned ([], false), Demo.world, [EvPrintf noDataMessage []]).
Proof.
  split; [reflexivity|]. split; [reflexivity|]. split; [reflexivity|].
  apply (loadPrListFile_few_rows Demo.quiet "one.csv" false Demo.world
           [Demo.row "acme" "widget-api" "42"]).
  - reflexivity.
  - repeat constructor.
  - cbn. lia.
Qed.

(** Whatever the collaborators, a file of exactly one data row is
    rejected with the message of the empty file. *)
Lemma single_row_rejected {World : Type} {C : Collaborators World}
      (g : Globals) (fileName : string) (isVerbose : bool) (w : World)
      (row : list string) :
  os_Open fileName w = Some (csv_file referenceCSVheader [row]) ->
  length row = 10%nat ->
  exists t, loadPrListFile g fileName isVerbose w
            = (Returned ([], false), w, t ++ [EvPrintf noDataMessage []]).
Proof.
  intros Hopen Hrow. eexists.
  apply (loadPrListFile_few_rows g fileName isVerbose w [row] Hopen).
  - now repeat constructor.
  - cbn. lia.
Qed.

(** C3. If some data row has a third field that [^\d+$] does not match,
    [loadPrListFile] returns no list and [false]; the pattern rejects
    [12a], [-5] and the empty string. *)
Theorem bad_number_fails {World : Type} {C : Collaborators World}
        (g : Globals) (fileName : string) (isVerbose : bool) (w : World)
        (lines : list csv.line) (row : list string) (prNbr : string) :
  os_Open fileName w = Some lines ->
  In (csv.Fields row) (tl lines) ->
  nth_error row 2 = Some prNbr ->
  Regexp.MatchString pr_regexp prNbr = false ->
  (exists t, loadPrListFile g fileName isVerbose w = (Returned ([], false), w, t)) /\
  map (Regexp.MatchString pr_regexp) ["12a"; "-5"; EmptyString] = [false; false; false].
Proof.
  intros Hopen Hin Hnbr Hbad. split; [|reflexivity].
  apply (loadPrListFile_invalid_row g fileName isVerbose w lines row Hopen Hin).
  destruct row as [|org [|prj [|n rest]]]; try reflexivity.
  cbn in Hnbr. injection Hnbr as ->.
  unfold valid_row. rewrite Hbad. apply andb_false_r.
Qed.

Lemma bad_number_fails_witness :
  os_Open "bad_number.csv" Demo.world = Some Demo.bad_number_file /\
  In (csv.Fields (Demo.row "acme" "widget-api" "4a2")) (tl Demo.bad_number_file) /\
  Regexp.MatchString pr_regexp "4a2" = false /\
  exists t, loadPrListFile Demo.verbose "bad_number.csv" true Demo.world
            = (Returned ([], false), Demo.world, t).
Proof.
  assert (In (csv.Fields (Demo.row "acme" "widget-api" "4a2")) (tl Demo.bad_number_file))
    as Hin by (right; left; reflexivity).
  repeat split; [exact Hin|].
  exact (proj1 (bad_number_fails Demo.verbose "bad_number.csv" true Demo.world
                  Demo.bad_number_file (Demo.row "acme" "widget-api" "4a2") "4a2"
                  eq_refl Hin eq_refl eq_refl)).
Defined.

(** C4. If some data row has a second field whose lower-cased form
    [^[\w-\.]+$] does not match, [loadPrListFile] returns no list and
    [false]. *)
Theorem bad_project_fails {World : Type} {C : Collaborators World}
        (g : Globals) (fileName : string) (isVerbose : bool) (w : World)
        (lines : list csv.line) (row : list string) (prj : string) :
  os_Open fileName w = Some lines ->
  In (csv.Fields row) (tl lines) ->
  nth_error row 1 = Some prj ->
  Regexp.MatchString prj_regexp (ToLower unicodeToLower prj) = false ->
  exists t, loadPrListFile g fileName isVerbose w = (Returned ([], false), w, t).
Proof.
  intros Hopen Hin Hprj Hbad.
  apply (loadPrListFile_invalid_row g fileName isVerbose w lines row Hopen Hin).
  destruct row as [|org [|p [|n rest]]]; try reflexivity.
  cbn in Hprj. injection Hprj as ->.
  unfold valid_row. rewrite Hbad. now rewrite andb_false_r.
Qed.

Lemma bad_project_fails_witness :
  os_Open "bad_project.csv" Demo.world = Some Demo.bad_project_file /\
  In (csv.Fields (Demo.row "acme" "widget api" "42")) (tl Demo.bad_project_file) /\
  Regexp.MatchString prj_regexp (ToLower unicodeToLower "widget api") = false /\
  exists t, loadPrListFile Demo.quiet "bad_project.csv" false Demo.world
            = (Returned ([], false), Demo.world, t).
Proof.
  assert (In (csv.Fields (Demo.row "acme" "widget api" "42")) (tl Demo.bad_project_file))
    as Hin by (left; reflexivity).
  repeat split; [exact Hin|].
  exact (bad_project_fails Demo.quiet "bad_project.csv" false Demo.world
           Demo.bad_project_file (Demo.row "acme" "widget api" "42") "widget api"
           eq_refl Hin eq_refl eq_refl).
Defined.

Lemma rows_diagnostic_first {World : Type} {C : Collaborators World} (g : Globals)
      (isVerbose : bool) (bad : list string) (post : list (list string)) :
  valid_row bad = false ->
  forall pre, forallb valid_row pre = true ->
              rows_diagnostic g (pre ++ bad :: post) isVerbose
              = row_diagnostic g bad isVerbose.
Proof.
  intros Hbad. induction pre as [|row pre IH]; intros Hpre.
  - cbn. now rewrite Hbad.
  - cbn in Hpre. apply andb_prop in Hpre. destruct Hpre as [Hrow Hpre].
    cbn. rewrite Hrow. now apply IH.
Qed.

(** C5. Row validation is all or nothing.  (1) A file with a data row that
    fails one of the three checks yields no list and [false], whatever
    the other rows are.  (2) In a well-formed file the records before the
    first rejected one produce nothing, and the run ends with the
    diagnostic of that record: no later record is examined.  (3) On a
    record, the checks run in the order organisation, project, number, and
    the first that fails ends the validation: its diagnostic is the only
    one, even when later fields are invalid too. *)
Theorem row_validation_all_or_nothing {World : Type} {C : Collaborators World}
        (g : Globals) (fileName : string) (isVerbose : bool) (w : World) :
  (forall lines row,
      os_Open fileName w = Some lines ->
      In (csv.Fields row) (tl lines) ->
      valid_row row = false ->
      exists t, loadPrListFile g fileName isVerbose w = (Returned ([], false), w, t)) /\
  (forall pre bad post,
      os_Open fileName w = Some (csv_file referenceCSVheader (pre ++ bad :: post)) ->
      Forall (fun row => length row = 10%nat) (pre ++ bad :: post) ->
      (2 <= length (pre ++ bad :: post))%nat ->
      forallb valid_row pre = true ->
      valid_row bad = false ->
      loadPrListFile g fileName isVerbose w
      = (Returned ([], false), w,
         (if isVerbose
          then [EvPrintln "Checking input file";
                EvPrintf ("  - Header is correct" ++ nl)%string [];
                EvPrintln "  - At least one Pull Request data available"]
          else []) ++ row_diagnostic g bad isVerbose)) /\
  (forall org prj prNbr rest,
      let row := org :: prj :: prNbr :: rest in
      let prj_ok := Regexp.MatchString prj_regexp (ToLower unicodeToLower prj) in
      let nbr_ok := Regexp.MatchString pr_regexp prNbr in
      (isValidOrgFormat org = false ->
       loadPrListFile_body g row isVerbose w
       = (Returned None, w, diagnostic g orgErrorFormat org isVerbose)) /\
      (isValidOrgFormat org = true -> prj_ok = false ->
       loadPrListFile_body g row isVerbose w
       = (Returned None, w, diagnostic g prjErrorFormat prj isVerbose)) /\
      (isValidOrgFormat org = true -> prj_ok = true -> nbr_ok = false ->
       loadPrListFile_body g row isVerbose w
       = (Returned None, w, diagnostic g prErrorFormat prNbr isVerbose))).
Proof.
  split; [|split].
  - intros lines row. apply loadPrListFile_invalid_row.
  - intros pre bad post Hopen Hall Hlen Hpre Hbad.
    rewrite (loadPrListFile_rows g fileName isVerbose w _ Hopen Hall Hlen).
    rewrite forallb_app. cbn [forallb]. rewrite Hpre, Hbad. cbn [andb].
    rewrite (rows_diagnostic_first g isVerbose bad post Hbad pre Hpre).
    now rewrite app_nil_r.
  - intros org prj prNbr rest row prj_ok nbr_ok. subst row prj_ok nbr_ok.
    rewrite loadPrListFile_body_run. unfold valid_row, row_diagnostic.
    repeat split.
    + now intros ->.
    + now intros -> ->.
    + now intros -> -> ->.
Qed.

Lemma row_validation_all_or_nothing_witness :
  loadPrListFile Demo.verbose "bad_number.csv" true Demo.world
  = (Returned ([], false), Demo.world,
     [EvPrintln "Checking input file";
      EvPrintf ("  - Header is correct" ++ nl)%string [];
      EvPrintln "  - At least one Pull Request data available";
      EvPrintf prErrorFormat [VString "4a2"];
      EvDebugPrintf prErrorFormat [VString "4a2"]]).
Proof.
  assert (Forall (fun row => length row = 10%nat)
            ([Demo.row "acme" "widget-api" "42"]
               ++ Demo.row "acme" "widget-api" "4a2"
               :: [Demo.row "jenkinsci" "jenkins" "1234"])) as Hall
      by (repeat constructor).
  assert (2 <= length ([Demo.row "acme" "widget-api" "42"]
                         ++ Demo.row "acme" "widget-api" "4a2"
                         :: [Demo.row "jenkinsci" "jenkins" "1234"]))%nat as Hlen
      by (cbn; lia).
  exact (proj1 (proj2 (row_validation_all_or_nothing
                         Demo.verbose "bad_number.csv" true Demo.world))
           [Demo.row "acme" "widget-api" "42"]
           (Demo.row "acme" "widget-api" "4a2")
           [Demo.row "jenkinsci" "jenkins" "1234"]
           eq_refl Hall Hlen eq_refl eq_refl).
Defined.

(** C6. A file made of the reference header alone is rejected: no list,
    [false], and the message [Error: No data available after the header]
    as the last thing printed, which is none of the other diagnostics of
    the load. *)
Theorem header_only_file_is_rejected {World : Type} {C : Collaborators World}
        (g : Globals) (fileName : string) (isVerbose : bool) (w : World) :
  os_Open fileName w = Some (csv_file referenceCSVheader []) ->
  loadPrListFile g fileName isVerbose w
  = (Returned ([], false), w,
     (if isVerbose
      then [EvPrintln "Checking input file";
            EvPrintf ("  - Header is correct" ++ nl)%string []]
      else []) ++ [EvPrintf noDataMessage []]) /\
  ~ In noDataMessage [headerErrorMessage; orgErrorFormat; prjErrorFormat; prErrorFormat].
Proof.
  intros Hopen. split.
  - apply (loadPrListFile_few_rows g fileName isVerbose w [] Hopen).
    + constructor.
    + cbn. lia.
  - cbn. intros [H|[H|[H|[H|[]]]]]; discriminate H.
Qed.

Lemma header_only_file_is_rejected_witness :
  os_Open "header.csv" Demo.world = Some (csv_file referenceCSVheader []) /\
  loadPrListFile Demo.quiet "header.csv" false Demo.world
  = (Returned ([], false), Demo.world, [EvPrintf noDataMessage []]).
Proof.
  split; [reflexivity|].
  exact (proj1 (header_only_file_is_rejected Demo.quiet "header.csv" false Demo.world
                  eq_refl)).
Defined.

(** ** Accounting *)

Lemma int_wrap_id (z : Z) : is_int z -> int_wrap z = z.
Proof.
  unfold is_int, minInt, maxInt, int_wrap. intros H.
  rewrite Z.mod_small; lia.
Qed.

Lemma int_wrap_is_int (z : Z) : is_int (int_wrap z).
Proof.
  unfold is_int, minInt, maxInt, int_wrap.
  pose proof (Z.mod_pos_bound (z + 2 ^ 63) (2 ^ 64)). lia.
Qed.

Lemma int_wrap_add_l (x y : Z) : int_wrap (int_wrap x + y) = int_wrap (x + y).
Proof.
  unfold int_wrap. f_equal.
  replace ((x + 2 ^ 63) mod 2 ^ 64 - 2 ^ 63 + y + 2 ^ 63)
    with ((x + 2 ^ 63) mod 2 ^ 64 + y) by lia.
  rewrite Z.add_mod_idemp_l by lia. f_equal. lia.
Qed.

Lemma count_zero_cons (n : Z) (l : list Z) :
  count_zero (n :: l) = (if n =? 0 then 1 else 0) + count_zero l.
Proof.
  unfold count_zero, len. cbn [filter]. destruct (n =? 0); [|lia].
  cbn [length]. lia.
Qed.

Lemma count_nonzero_cons (n : Z) (l : list Z) :
  count_nonzero (n :: l) = (if n =? 0 then 0 else 1) + count_nonzero l.
Proof.
  unfold count_nonzero, len. cbn [filter]. destruct (n =? 0); cbn [negb]; [lia|].
  cbn [length]. lia.
Qed.

Lemma count_zero_bounds (l : list Z) : 0 <= count_zero l <= len l.
Proof.
  unfold count_zero, len. pose proof (filter_length_le (fun n => n =? 0) l). lia.
Qed.

Lemma count_nonzero_bounds (l : list Z) : 0 <= count_nonzero l <= len l.
Proof.
  unfold count_nonzero, len.
  pose proof (filter_length_le (fun n => negb (n =? 0)) l). lia.
Qed.

(** The counters after a sequence of fetches, in Go's arithmetic. *)
Lemma fold_account (counts : list Z) :
  forall acc : Accounting,
    is_int (nbrPR_noComment acc) -> is_int (nbrPR_withComments acc) ->
    is_int (totalComments acc) ->
    fold_left account counts acc
    = {| nbrPR_noComment := int_wrap (nbrPR_noComment acc + count_zero counts);
         nbrPR_withComments := int_wrap (nbrPR_withComments acc + count_nonzero counts);
         totalComments := int_wrap (totalComments acc + sum counts) |}.
Proof.
  induction counts as [|n counts IH]; intros [a b c] Ha Hb Hc; cbn [fold_left].
  - cbn. rewrite !Z.add_0_r, !int_wrap_id by assumption. reflexivity.
  - cbn [nbrPR_noComment nbrPR_withComments totalComments] in *.
    rewrite count_zero_cons, count_nonzero_cons. cbn [sum fold_right].
    unfold account. cbn [nbrPR_noComment nbrPR_withComments totalComments].
    destruct (n =? 0).
    + rewrite IH; cbn [nbrPR_noComment nbrPR_withComments totalComments];
        try apply int_wrap_is_int; try assumption.
      rewrite !int_wrap_add_l, !Z.add_assoc, ?Z.add_0_r. reflexivity.
    + rewrite IH; cbn [nbrPR_noComment nbrPR_withComments totalComments];
        try apply int_wrap_is_int; try assumption.
      rewrite !int_wrap_add_l, !Z.add_assoc, ?Z.add_0_r. reflexivity.
Qed.

Lemma fold_account_exact (counts : list Z) :
  len counts <= maxInt -> is_int (sum counts) ->
  fold_left account counts no_accounting
  = {| nbrPR_noComment := count_zero counts;
       nbrPR_withComments := count_nonzero counts;
       totalComments := sum counts |}.
Proof.
  intros Hlen Hsum.
  rewrite fold_account by (cbn; unfold is_int, minInt, maxInt; lia).
  cbn [no_accounting nbrPR_noComment nbrPR_withComments totalComments Z.add].
  pose proof (count_zero_bounds counts). pose proof (count_nonzero_bounds counts).
  rewrite !int_wrap_id; [reflexivity|assumption| |];
    unfold is_int, minInt, maxInt in *; lia.
Qed.

(** ** [performAction] *)

Section Batch.

Context {World : Type} {C : Collaborators World}.
Variable g : Globals.

Lemma prepareOutput_run (w : World) :
  prepareOutput g w = (Returned true, prepared_world g w, prepare_events g w).
Proof.
  unfold prepareOutput, prepared_world, prepare_events.
  destruct (globalIsAppend g); cbn [negb andb]; [reflexivity|].
  unfold bind, call_fileExist, when, call_os_Remove, ret.
  now destruct (fileExist (outputFileName g) w).
Qed.

(** The events of one turn of the loop after the fetch. *)
Lemma bar_step_run (w : World) :
  exists w' t,
    when (negb (isVerbose g))
      (failed <- call_bar_Add 1 ;;
       when failed
         (emit (EvLogPrintf
                  ("Unexpected error updating progress bar (%v)" ++ nl)%string
                  [VErr (Some ErrBar)]))) w
    = (Returned tt, w', t) /\
    fetched t = [] /\ existsb is_quota t = false /\ forallb fetch_appends t = true /\
    existsb is_fetch t = false.
Proof.
  destruct (isVerbose g); cbn [negb when].
  - exists w, []. repeat split.
  - unfold bind, call_bar_Add.
    destruct (bar_Add 1 w) as [failed w'].
    exists w'. destruct failed; cbn; eexists; repeat split.
Qed.

Lemma fetched_app (t1 t2 : list Event) : fetched (t1 ++ t2) = fetched t1 ++ fetched t2.
Proof.
  induction t1 as [|e t1 IH]; [reflexivity|].
  destruct e; cbn; rewrite ?IH; reflexivity.
Qed.

(** The loop always runs to its end; it makes one fetch per item, each
    with the append flag it was given, and the counters it returns are
    those of the counts fetched. *)
Lemma performAction_loop_run (isAppend : bool) :
  forall (prList : list string) (acc : Accounting) (w : World),
  exists w' t,
    performAction_loop g prList isAppend acc w
    = (Returned (fold_left account (fetched t) acc), w', t) /\
    length (fetched t) = length prList /\
    existsb is_quota t = false /\
    (isAppend = true -> forallb fetch_appends t = true).
Proof.
  induction prList as [|pr prList IH]; intros acc w.
  - exists w, []. repeat split.
  - cbn [performAction_loop].
    unfold call_getCommenters at 1.
    destruct (getCommenters pr isAppend (globalIsNoHeader g) (outputFileName g) w)
      as [n w1] eqn:Hfetch.
    destruct (bar_step_run w1) as (w2 & tb & Hbar & Hb1 & Hb2 & Hb3 & _).
    destruct (IH (account acc n) w2) as (w3 & tl & Hloop & Hl1 & Hl2 & Hl3).
    exists w3, (EvGetCommenters pr isAppend (globalIsNoHeader g) (outputFileName g) n
                  :: tb ++ tl).
    split; [|split; [|split]].
    + eapply bind_step.
      * unfold call_getCommenters. rewrite Hfetch. reflexivity.
      * cbn zeta. eapply bind_step; [exact Hbar| |reflexivity].
        rewrite Hloop. cbn [fetched]. rewrite fetched_app, Hb1. reflexivity.
      * reflexivity.
    + cbn [fetched length]. rewrite fetched_app, Hb1. cbn [app]. now rewrite Hl1.
    + cbn [existsb is_quota]. rewrite existsb_app, Hb2, Hl2. reflexivity.
    + intros Ha. cbn [forallb fetch_appends]. rewrite forallb_app, Hb3, (Hl3 Ha), Ha.
      reflexivity.
Qed.

(** A failed load: the diagnostic, then [os.Exit(1)]. *)
Lemma performAction_load_failed (inputFile : string) (w : World)
      (prList : list string) (tl : list Event) :
  loadPrListFile g inputFile (isVerbose g) w = (Returned (prList, false), w, tl) ->
  performAction g inputFile w
  = (Exited 1, w,
     prelude g inputFile ++ tl ++ [EvPrintf couldNotLoadFormat [VString inputFile]]).
Proof.
  intros Hload. unfold performAction, prelude.
  eapply bind_step; [apply emit_run| |reflexivity].
  eapply bind_step; [apply when_emit_run| |].
  - eapply bind_step; [exact Hload| |reflexivity].
    cbn [negb].
    unfold bind at 1. unfold bind at 1. cbn [emit os_Exit]. reflexivity.
  - cbn [app]. now rewrite ?app_nil_r.
Qed.

(** A successful load: the output is prepared, the quota is checked once,
    and the loop runs only if the check returns. *)
Lemma performAction_loaded (inputFile : string) (w : World)
      (prList : list string) (tl : list Event) :
  loadPrListFile g inputFile (isVerbose g) w = (Returned (prList, true), w, tl) ->
  let before :=
    prelude g inputFile ++ tl ++ prepare_events g w ++ [EvQuota (len prList)] in
  match checkIfSufficientQuota (len prList) (prepared_world g w) with
  | (Some code, w2) => performAction g inputFile w = (Exited code, w2, before)
  | (None, w2) =>
      exists w' tloop,
        performAction g inputFile w
        = (Returned tt, w',
           before ++
           (if isVerbose g then [] else [EvBarDefault (len prList)]) ++
           tloop ++ report g (fold_left account (fetched tloop) no_accounting)) /\
        length (fetched tloop) = length prList /\
        existsb is_quota tloop = false /\
        forallb fetch_appends tloop = true
  end.
Proof.
  intros Hload before. subst before.
  destruct (checkIfSufficientQuota (len prList) (prepared_world g w))
    as [[code|] w2] eqn:Hquota.
  - unfold performAction, prelude.
    eapply bind_step; [apply emit_run| |reflexivity].
    eapply bind_step; [apply when_emit_run| |].
    + eapply bind_step; [exact Hload| |reflexivity].
      cbn [negb].
      eapply bind_step; [reflexivity| |reflexivity].
      eapply bind_step; [apply prepareOutput_run| |reflexivity].
      unfold bind at 1. unfold call_checkIfSufficientQuota at 1.
      rewrite Hquota. reflexivity.
    + cbn [app]. now rewrite ?app_nil_r.
  - set (w3 := if isVerbose g then w2 else progressbar_Default (len prList) w2).
    destruct (performAction_loop_run true prList no_accounting w3)
      as (w' & tloop & Hloop & Hlen & Hq & Ha).
    exists w', tloop. split; [|split; [|split]]; [|exact Hlen|exact Hq|exact (Ha eq_refl)].
    unfold performAction, prelude.
    eapply bind_step; [apply emit_run| |reflexivity].
    eapply bind_step; [apply when_emit_run| |].
    + eapply bind_step; [exact Hload| |reflexivity].
      cbn [negb].
      eapply bind_step; [reflexivity| |reflexivity].
      eapply bind_step; [apply prepareOutput_run| |reflexivity].
      eapply bind_step;
        [unfold call_checkIfSufficientQuota; rewrite Hquota; reflexivity| |reflexivity].
      eapply (bind_step _ _ _ w3 _ tt _ _
                (if isVerbose g then [] else [EvBarDefault (len prList)])).
      * subst w3. now destruct (isVerbose g).
      * eapply bind_step; [exact Hloop|reflexivity|reflexivity].
      * reflexivity.
    + destruct (isRootDebug g); cbn [app]; fold (@app Event);
        rewrite <- ?app_assoc; cbn [app]; reflexivity.
Qed.

End Batch.

Lemma messages_fetched (t : list Event) : forallb is_message t = true -> fetched t = [].
Proof.
  induction t as [|e t IH]; [reflexivity|].
  cbn [forallb]. intros H. apply andb_prop in H. destruct H as [He Ht].
  destruct e; try discriminate He; cbn [fetched]; auto.
Qed.

Lemma messages_quiet (t : list Event) :
  forallb is_message t = true ->
  existsb touches_output t = false /\ existsb is_quota t = false /\
  existsb is_fetch t = false /\ forallb fetch_appends t = true.
Proof.
  induction t as [|e t IH]; [repeat split|].
  cbn [forallb]. intros H. apply andb_prop in H. destruct H as [He Ht].
  destruct (IH Ht) as (H1 & H2 & H3 & H4).
  destruct e; try discriminate He; cbn; auto.
Qed.

Lemma prelude_messages (g : Globals) (inputFile : string) :
  forallb is_message (prelude g inputFile) = true.
Proof. unfold prelude. now destruct (isRootDebug g). Qed.

Lemma report_messages (g : Globals) (acc : Accounting) :
  forallb is_message (report g acc) = true.
Proof. unfold report. now destruct (isRootDebug g). Qed.

Lemma loadPrListFile_total {World : Type} {C : Collaborators World}
      (g : Globals) (fileName : string) (isVerbose : bool) (w : World) :
  exists prList b tl,
    loadPrListFile g fileName isVerbose w = (Returned (prList, b), w, tl) /\
    forallb is_message tl = true.
Proof.
  destruct (loadPrListFile_returns g fileName isVerbose w)
    as ([prList b] & tl & Hrun & Hmsg & _).
  now exists prList, b, tl.
Qed.

(** ** The claims about [performAction] *)

(** C9. When the load fails, [performAction] prints [Could not load] and
    terminates the process with status 1; the world is the one it started
    from, and no event of the run removes or writes the output file. *)
Theorem failed_load_exits_before_output {World : Type} {C : Collaborators World}
        (g : Globals) (inputFile : string) (w : World) (prList : list string) :
  outcome_of (loadPrListFile g inputFile (isVerbose g) w) = Returned (prList, false) ->
  performAction g inputFile w
  = (Exited 1, w,
     prelude g inputFile
       ++ trace_of (loadPrListFile g inputFile (isVerbose g) w)
       ++ [EvPrintf couldNotLoadFormat [VString inputFile]]) /\
  existsb touches_output (trace_of (performAction g inputFile w)) = false.
Proof.
  intros Hfail.
  destruct (loadPrListFile_total g inputFile (isVerbose g) w)
    as (prList' & b & tl & Hrun & Hmsg).
  rewrite Hrun in Hfail |- *. cbn in Hfail. injection Hfail as -> ->.
  cbn [trace_of snd].
  rewrite (performAction_load_failed g inputFile w prList tl Hrun).
  split; [reflexivity|]. cbn [trace_of snd].
  apply messages_quiet.
  rewrite !forallb_app, prelude_messages, Hmsg. reflexivity.
Qed.

Lemma failed_load_exits_before_output_witness :
  os_Open "missing.csv" Demo.world = Some Demo.missing_column_file /\
  outcome_of (loadPrListFile Demo.verbose "missing.csv" true Demo.world)
  = Returned ([], false) /\
  outcome_of (performAction Demo.verbose "missing.csv" Demo.world) = Exited 1 /\
  world_of (performAction Demo.verbose "missing.csv" Demo.world) = Demo.world.
Proof.
  split; [reflexivity|]. split; [reflexivity|].
  pose proof (failed_load_exits_before_output
                Demo.verbose "missing.csv" Demo.world [] eq_refl) as [Hrun _].
  rewrite Hrun. split; reflexivity.
Defined.

Lemma prepare_events_quiet {World : Type} {C : Collaborators World}
      (g : Globals) (w : World) :
  fetched (prepare_events g w) = [] /\
  existsb is_quota (prepare_events g w) = false /\
  existsb is_fetch (prepare_events g w) = false /\
  forallb fetch_appends (prepare_events g w) = true.
Proof.
  unfold prepare_events.
  destruct (negb (globalIsAppend g) && fileExist (outputFileName g) w)%bool;
    repeat split.
Qed.

Lemma bar_default_quiet (b : bool) (n : Z) :
  let t := if b then [] else [EvBarDefault n] in
  fetched t = [] /\ existsb is_quota t = false /\ forallb fetch_appends t = true.
Proof. destruct b; repeat split. Qed.

(** C7. In a run that completes, the summary printed at the end gives:
    as PRs without comments, the number of fetches that returned zero; as
    PRs with comments, the number of fetches that returned something else;
    as total, the sum of the counts returned.  The three counters are Go
    [int]s, so each is given as the [int] of that number; it is the number
    itself whenever that is a value of [int], which the two tallies are
    for any list that Go can hold.  Counts [0, 3, 0] give 2, 1 and 3. *)
Theorem accounting_matches_counts {World : Type} {C : Collaborators World}
        (g : Globals) (inputFile : string) (w w' : World) (t : list Event) :
  performAction g inputFile w = (Returned tt, w', t) ->
  let counts := fetched t in
  (exists t0,
      t = t0 ++ report g {| nbrPR_noComment := int_wrap (count_zero counts);
                            nbrPR_withComments := int_wrap (count_nonzero counts);
                            totalComments := int_wrap (sum counts) |}) /\
  (len counts <= maxInt ->
   int_wrap (count_zero counts) = count_zero counts /\
   int_wrap (count_nonzero counts) = count_nonzero counts) /\
  (is_int (sum counts) -> int_wrap (sum counts) = sum counts) /\
  fold_left account [0; 3; 0] no_accounting
  = {| nbrPR_noComment := 2; nbrPR_withComments := 1; totalComments := 3 |}.
Proof.
  intros Hperf counts.
  split; [|split; [|split; [apply int_wrap_id|reflexivity]]].
  2: { intros Hlen.
       pose proof (count_zero_bounds counts). pose proof (count_nonzero_bounds counts).
       split; apply int_wrap_id; unfold is_int, minInt, maxInt in *; lia. }
  subst counts.
  destruct (loadPrListFile_total g inputFile (isVerbose g) w)
    as (prList & b & tl & Hrun & Hmsg).
  destruct b.
  2: { rewrite (performAction_load_failed g inputFile w prList tl Hrun) in Hperf.
       discriminate Hperf. }
  pose proof (performAction_loaded g inputFile w prList tl Hrun) as Hcases.
  cbn zeta in Hcases.
  destruct (checkIfSufficientQuota (len prList) (prepared_world g w)) as [[code|] w2].
  { rewrite Hcases in Hperf. discriminate Hperf. }
  destruct Hcases as (w'' & tloop & Hperf' & _ & _ & _).
  pose proof (f_equal trace_of (eq_trans (eq_sym Hperf') Hperf)) as Ht.
  cbn [trace_of snd] in Ht. subst t.
  assert (fetched
            ((prelude g inputFile ++ tl ++ prepare_events g w ++ [EvQuota (len prList)])
               ++ (if isVerbose g then [] else [EvBarDefault (len prList)])
               ++ tloop
               ++ report g (fold_left account (fetched tloop) no_accounting))
          = fetched tloop) as Hfetched.
  { destruct (prepare_events_quiet g w) as (Hp & _).
    destruct (bar_default_quiet (isVerbose g) (len prList)) as (Hb & _).
    cbn zeta in Hb.
    rewrite !fetched_app, Hp, Hb.
    rewrite (messages_fetched _ (prelude_messages g inputFile)).
    rewrite (messages_fetched _ Hmsg).
    rewrite (messages_fetched _ (report_messages g _)).
    cbn [app fetched]. now rewrite app_nil_r. }
  rewrite Hfetched.
  rewrite fold_account by (cbn; unfold is_int, minInt, maxInt; lia).
  cbn [no_accounting nbrPR_noComment nbrPR_withComments totalComments Z.add].
  eexists. rewrite !app_assoc. reflexivity.
Qed.

Lemma accounting_matches_counts_witness :
  fetched (trace_of (performAction Demo.quiet "three.csv" Demo.world)) = [0; 3; 0] /\
  exists t0,
    trace_of (performAction Demo.quiet "three.csv" Demo.world)
    = t0 ++ [EvPrintf ("Nbr of PR without comments: %d" ++ nl)%string [VInt 2];
             EvPrintf ("Nbr of PR with comments:    %d" ++ nl)%string [VInt 1];
             EvPrintf ("Total comments:             %d" ++ nl)%string [VInt 3]].
Proof.
  split; [reflexivity|].
  exact (proj1 (accounting_matches_counts Demo.quiet "three.csv" Demo.world
                  (world_of (performAction Demo.quiet "three.csv" Demo.world))
                  (trace_of (performAction Demo.quiet "three.csv" Demo.world))
                  eq_refl)).
Defined.

(** C8. When the load succeeds the quota is checked exactly once, with the
    number of work items, after everything that precedes the loop and
    before any fetch.  With the quota guard of the spec, a remaining quota
    below the projected cost of the items terminates the process there:
    no fetch is made. *)
Theorem quota_preflight_gate {World : Type} {C : Collaborators World}
        (g : Globals) (inputFile : string) (w : World) (prList : list string) :
  outcome_of (loadPrListFile g inputFile (isVerbose g) w) = Returned (prList, true) ->
  (exists t1 t2,
      trace_of (performAction g inputFile w) = t1 ++ EvQuota (len prList) :: t2 /\
      existsb is_quota t1 = false /\ existsb is_fetch t1 = false /\
      existsb is_quota t2 = false) /\
  (forall (getQuota : World -> Z * Z) (projectedCost : Z -> Z) (exitStatus : Z),
      (forall n w0, checkIfSufficientQuota n w0
                    = checkIfSufficientQuota_model getQuota projectedCost exitStatus n w0) ->
      snd (getQuota (prepared_world g w)) < projectedCost (len prList) ->
      outcome_of (performAction g inputFile w) = Exited exitStatus /\
      existsb is_fetch (trace_of (performAction g inputFile w)) = false).
Proof.
  intros Hload.
  destruct (loadPrListFile_total g inputFile (isVerbose g) w)
    as (prList' & b & tl & Hrun & Hmsg).
  rewrite Hrun in Hload. cbn in Hload. injection Hload as -> ->.
  destruct (messages_quiet tl Hmsg) as (_ & Hq & Hf & _).
  destruct (messages_quiet _ (prelude_messages g inputFile)) as (_ & Hpq & Hpf & _).
  destruct (prepare_events_quiet g w) as (_ & Hrq & Hrf & _).
  pose proof (performAction_loaded g inputFile w prList tl Hrun) as Hcases.
  cbn zeta in Hcases.
  split.
  - exists (prelude g inputFile ++ tl ++ prepare_events g w).
    destruct (checkIfSufficientQuota (len prList) (prepared_world g w)) as [[code|] w2].
    + exists []. rewrite Hcases. cbn [trace_of snd].
      rewrite !existsb_app, Hpq, Hq, Hrq, Hpf, Hf, Hrf.
      split; [now rewrite <- !app_assoc|repeat split].
    + destruct Hcases as (w' & tloop & Hperf & _ & Hlq & _).
      exists ((if isVerbose g then [] else [EvBarDefault (len prList)])
                ++ tloop
                ++ report g (fold_left account (fetched tloop) no_accounting)).
      rewrite Hperf. cbn [trace_of snd].
      rewrite !existsb_app, Hpq, Hq, Hrq, Hpf, Hf, Hrf.
      split; [|split; [reflexivity|split; [reflexivity|]]].
      * rewrite <- !app_assoc. cbn [app]. reflexivity.
      * destruct (messages_quiet _ (report_messages g
                    (fold_left account (fetched tloop) no_accounting)))
          as (_ & Hrep & _).
        rewrite Hlq, Hrep. now destruct (isVerbose g).
  - intros getQuota projectedCost exitStatus Hmodel Hlow.
    rewrite Hmodel in Hcases. unfold checkIfSufficientQuota_model in Hcases.
    apply Z.ltb_lt in Hlow. rewrite Hlow in Hcases.
    rewrite Hcases. cbn [outcome_of trace_of fst snd]. split; [reflexivity|].
    rewrite !existsb_app, Hpf, Hf, Hrf. reflexivity.
Qed.

Lemma quota_preflight_gate_witness :
  snd (5000, Demo.remaining (prepared_world Demo.quiet Demo.starved_world)) < 3 /\
  outcome_of (performAction Demo.quiet "three.csv" Demo.starved_world) = Exited 1 /\
  existsb is_fetch (trace_of (performAction Demo.quiet "three.csv" Demo.starved_world))
  = false.
Proof.
  split; [reflexivity|].
  exact (proj2 (quota_preflight_gate Demo.quiet "three.csv" Demo.starved_world
                  ["acme/widget-api/42"; "acme/Widget.UI/7"; "jenkinsci/jenkins/1234"]
                  eq_refl)
           (fun w => (5000, Demo.remaining w)) (fun n => n) 1
           (fun n w0 => eq_refl) eq_refl).
Defined.

(** * Further properties *)

(** ** [loadPrListFile]: when it succeeds, and what it never does *)

(** The load succeeds exactly on the files made of the reference header
    and at least two records of ten fields that all pass the three checks;
    the list is then the work items of the records, in order. *)
Theorem loadPrListFile_succeeds_iff {World : Type} {C : Collaborators World}
        (g : Globals) (fileName : string) (isVerbose : bool) (w : World)
        (prList : list string) :
  (exists t, loadPrListFile g fileName isVerbose w = (Returned (prList, true), w, t)) <->
  (exists rows,
      os_Open fileName w = Some (csv_file referenceCSVheader rows) /\
      Forall (fun row => length row = 10%nat) rows /\
      (2 <= length rows)%nat /\
      forallb valid_row rows = true /\
      prList = map work_item rows).
Proof.
  split.
  - intros (t & Hrun).
    destruct (loadPrListFile_returns g fileName isVerbose w)
      as (r & t' & Hrun' & _ & _ & Htrue).
    rewrite Hrun in Hrun'. injection Hrun' as <- _.
    exact (Htrue eq_refl).
  - intros (rows & Hopen & Hall & Hlen & Hvalid & ->).
    rewrite (loadPrListFile_rows g fileName isVerbose w rows Hopen Hall Hlen), Hvalid.
    eexists. reflexivity.
Qed.

(** Whatever the file, the load returns: no record is indexed out of
    range, the world is left as it was, and the only events are lines
    printed or logged.  A failed load returns the nil list. *)
Theorem loadPrListFile_only_reads_and_prints {World : Type} {C : Collaborators World}
        (g : Globals) (fileName : string) (isVerbose : bool) (w : World) :
  exists prList b t,
    loadPrListFile g fileName isVerbose w = (Returned (prList, b), w, t) /\
    forallb is_message t = true /\
    (b = false -> prList = []).
Proof.
  destruct (loadPrListFile_returns g fileName isVerbose w)
    as ([prList b] & t & Hrun & Hmsg & Hfalse & _).
  exists prList, b, t. auto.
Qed.

(** The verbose and debug flags change what is printed, never what is
    returned. *)
Theorem loadPrListFile_result_ignores_flags {World : Type} {C : Collaborators World}
        (g g' : Globals) (isVerbose isVerbose' : bool) (fileName : string) (w : World) :
  outcome_of (loadPrListFile g fileName isVerbose w)
  = outcome_of (loadPrListFile g' fileName isVerbose' w).
Proof.
  destruct (loadPrListFile_returns g fileName isVerbose w)
    as ([prList b] & t & Hrun & _ & Hfalse & Htrue).
  destruct (loadPrListFile_returns g' fileName isVerbose' w)
    as ([prList' b'] & t' & Hrun' & _ & Hfalse' & Htrue').
  rewrite Hrun, Hrun'. cbn [outcome_of fst snd] in *.
  destruct b.
  - destruct (Htrue eq_refl) as (rows & Hopen & Hall & Hlen & Hvalid & ->).
    rewrite (loadPrListFile_rows g' fileName isVerbose' w rows Hopen Hall Hlen), Hvalid
      in Hrun'.
    now injection Hrun' as <- <-.
  - destruct b'.
    + destruct (Htrue' eq_refl) as (rows & Hopen & Hall & Hlen & Hvalid & ->).
      rewrite (loadPrListFile_rows g fileName isVerbose w rows Hopen Hall Hlen), Hvalid
        in Hrun.
      discriminate Hrun.
    + now rewrite (Hfalse eq_refl), (Hfalse' eq_refl).
Qed.

Lemma diagnostic_quiet (g : Globals) (format field : string) :
  isRootDebug g = false -> diagnostic g format field false = [].
Proof. intros H. unfold diagnostic. now rewrite H. Qed.

Lemma rows_diagnostic_quiet {World : Type} {C : Collaborators World} (g : Globals)
      (rows : list (list string)) :
  isRootDebug g = false -> rows_diagnostic g rows false = [].
Proof.
  intros H. induction rows as [|row rows IH]; [reflexivity|]. cbn [rows_diagnostic].
  destruct (valid_row row); [exact IH|].
  unfold row_diagnostic. destruct row as [|org [|prj [|prNbr rest]]]; try reflexivity.
  repeat match goal with |- context [if ?b then _ else _] => destruct b end;
    try reflexivity; now apply diagnostic_quiet.
Qed.

(** Without the verbose and debug flags a file rejected for one of its
    rows is rejected in silence: the load prints nothing at all. *)
Theorem quiet_row_rejection_is_silent {World : Type} {C : Collaborators World}
        (g : Globals) (fileName : string) (w : World) (rows : list (list string)) :
  isRootDebug g = false ->
  os_Open fileName w = Some (csv_file referenceCSVheader rows) ->
  Forall (fun row => length row = 10%nat) rows ->
  (2 <= length rows)%nat ->
  forallb valid_row rows = false ->
  loadPrListFile g fileName false w = (Returned ([], false), w, []).
Proof.
  intros Hdebug Hopen Hall Hlen Hbad.
  rewrite (loadPrListFile_rows g fileName false w rows Hopen Hall Hlen), Hbad.
  now rewrite (rows_diagnostic_quiet g rows Hdebug).
Qed.

Lemma quiet_row_rejection_is_silent_witness :
  loadPrListFile Demo.quiet "bad_number.csv" false Demo.world
  = (Returned ([], false), Demo.world, []).
Proof.
  assert (Forall (fun row => length row = 10%nat)
            [Demo.row "acme" "widget-api" "42"; Demo.row "acme" "widget-api" "4a2";
             Demo.row "jenkinsci" "jenkins" "1234"]) as Hall by (repeat constructor).
  assert (2 <= length [Demo.row "acme" "widget-api" "42";
                       Demo.row "acme" "widget-api" "4a2";
                       Demo.row "jenkinsci" "jenkins" "1234"])%nat as Hlen
      by (cbn; lia).
  exact (quiet_row_rejection_is_silent Demo.quiet "bad_number.csv" Demo.world
           [Demo.row "acme" "widget-api" "42"; Demo.row "acme" "widget-api" "4a2";
            Demo.row "jenkinsci" "jenkins" "1234"]
           eq_refl eq_refl Hall Hlen eq_refl).
Defined.

Lemma loadPrListFile_valid_file_witness :
  exists t,
    loadPrListFile Demo.quiet "three.csv" true Demo.world
    = (Returned (["acme/widget-api/42"; "acme/Widget.UI/7"; "jenkinsci/jenkins/1234"],
                 true), Demo.world, t).
Proof.
  assert (Forall (fun row => length row = 10%nat)
            [Demo.row "acme" "widget-api" "42"; Demo.row "acme" "Widget.UI" "7";
             Demo.row "jenkinsci" "jenkins" "1234"]) as Hall by (repeat constructor).
  assert (2 <= length [Demo.row "acme" "widget-api" "42";
                       Demo.row "acme" "Widget.UI" "7";
                       Demo.row "jenkinsci" "jenkins" "1234"])%nat as Hlen
      by (cbn; lia).
  assert (os_Open "three.csv" Demo.world
          = Some (csv_file referenceCSVheader
                    [Demo.row "acme" "widget-api" "42"; Demo.row "acme" "Widget.UI" "7";
                     Demo.row "jenkinsci" "jenkins" "1234"])) as Hopen by reflexivity.
  assert (forallb valid_row
            [Demo.row "acme" "widget-api" "42"; Demo.row "acme" "Widget.UI" "7";
             Demo.row "jenkinsci" "jenkins" "1234"] = true) as Hvalid by reflexivity.
  destruct (loadPrListFile_valid_file Demo.quiet "three.csv" true Demo.world
              [Demo.row "acme" "widget-api" "42"; Demo.row "acme" "Widget.UI" "7";
               Demo.row "jenkinsci" "jenkins" "1234"]
              Hopen Hall Hvalid Hlen) as (t & Hrun & _).
  exists t. exact Hrun.
Defined.

(** ** [loadPrListFile]: the failures of the file itself *)

(** A file that cannot be opened, an empty file, and a file whose first
    line is not valid CSV are all rejected with one line in the log and
    nothing on the standard output, verbose or not.  In the last two
    cases the error operand of the log line is the nil error left by
    [os.Open]. *)
Theorem unreadable_input_is_logged {World : Type} {C : Collaborators World}
        (g : Globals) (fileName : string) (isVerbose : bool) (w : World) :
  (os_Open fileName w = None ->
   loadPrListFile g fileName isVerbose w
   = (Returned ([], false), w,
      [EvLogPrintf ("Unable to read input file " ++ fileName ++ nl)%string
                   [VErr (Some ErrOpen)]])) /\
  (forall rest,
      os_Open fileName w = Some [] \/ os_Open fileName w = Some (csv.Malformed :: rest) ->
      loadPrListFile g fileName isVerbose w
      = (Returned ([], false), w,
         [EvLogPrintf ("Unexpected error loading" ++ fileName ++ nl)%string
                      [VErr None]])).
Proof.
  split.
  - intros Hopen. unfold loadPrListFile.
    eapply bind_step; [apply call_os_Open_run| |reflexivity].
    rewrite Hopen. reflexivity.
  - intros rest [Hopen|Hopen]; unfold loadPrListFile.
    all: (eapply bind_step; [apply call_os_Open_run| |reflexivity]).
    all: rewrite Hopen; reflexivity.
Qed.

Lemma unreadable_input_is_logged_witness :
  os_Open "absent.csv" Demo.world = None /\
  loadPrListFile Demo.verbose "absent.csv" true Demo.world
  = (Returned ([], false), Demo.world,
     [EvLogPrintf ("Unable to read input file " ++ "absent.csv" ++ nl)%string
                  [VErr (Some ErrOpen)]]).
Proof.
  split; [reflexivity|].
  exact (proj1 (unreadable_input_is_logged Demo.verbose "absent.csv" true Demo.world)
           eq_refl).
Defined.

(** A first record that is not the reference header ends the load there:
    [Error: header is incorrect.] is printed, verbose or not, after the
    diagnostic of [validateHeader]; the lines that follow are not read. *)
Theorem header_mismatch_ends_the_load {World : Type} {C : Collaborators World}
        (g : Globals) (fileName : string) (isVerbose : bool) (w : World)
        (header : list string) (rest : list csv.line) :
  os_Open fileName w = Some (csv.Fields header :: rest) ->
  header <> referenceCSVheader ->
  loadPrListFile g fileName isVerbose w
  = (Returned ([], false), w,
     (if isVerbose then [EvPrintln "Checking input file"] else [])
       ++ trace_of (validateHeader header referenceCSVheader isVerbose w)
       ++ [EvPrintln headerErrorMessage]).
Proof.
  intros Hopen Hne.
  destruct (validateHeader_returns_eq header referenceCSVheader isVerbose w)
    as (b & tv & Hrun & _ & Hb).
  destruct b; [exfalso; apply Hne; now apply Hb|].
  rewrite Hrun. cbn [trace_of snd].
  unfold loadPrListFile.
  eapply bind_step; [apply call_os_Open_run| |reflexivity].
  rewrite Hopen.
  cbn [csv.NewReader csv.Read csv.input csv.FieldsPerRecord csv.readLine
       Z.ltb Z.eqb Z.compare].
  eapply bind_step; [apply when_emit_run| |reflexivity].
  eapply bind_step; [exact Hrun| |reflexivity].
  reflexivity.
Qed.

Lemma header_mismatch_ends_the_load_witness :
  loadPrListFile Demo.quiet "missing.csv" false Demo.world
  = (Returned ([], false), Demo.world, [EvPrintln headerErrorMessage]).
Proof.
  assert (["org"; "repository"; "number"; "state"; "created_at"; "merged_at";
           "user.login"; "month_year"; "title"] <> referenceCSVheader) as Hne
      by discriminate.
  exact (header_mismatch_ends_the_load Demo.quiet "missing.csv" false Demo.world
           _ _ eq_refl Hne).
Defined.

Lemma ReadAll_from_field_count (fpr : Z) (bad : list string) (rest : list csv.line) :
  0 < fpr -> len bad <> fpr ->
  forall (pre acc : list (list string)),
    Forall (fun row => len row = fpr) pre ->
    exists r,
      csv.ReadAll_from (map csv.Fields pre ++ csv.Fields bad :: rest) fpr acc
      = (r, [], Some csv.ErrFieldCount).
Proof.
  intros Hpos Hbad. induction pre as [|row pre IH]; intros acc Hall.
  - cbn [map app csv.ReadAll_from csv.readLine].
    assert ((0 <? fpr) = true) as -> by (apply Z.ltb_lt; lia).
    assert ((len bad =? fpr) = false) as -> by (apply Z.eqb_neq; exact Hbad).
    cbn [negb]. eexists. reflexivity.
  - inversion Hall as [|? ? Hrow Hrows]; subst.
    cbn [map app csv.ReadAll_from csv.readLine].
    assert ((0 <? len row) = true) as -> by (apply Z.ltb_lt; lia).
    rewrite Z.eqb_refl. cbn [negb]. now apply IH.
Qed.

(** Under a valid header, a record that does not have ten fields fails
    the load when the records are read, before any field is checked: the
    only trace of the failure is the line in the log, whatever the fields
    of the records are. *)
Theorem wrong_field_count_fails_before_validation
        {World : Type} {C : Collaborators World}
        (g : Globals) (fileName : string) (isVerbose : bool) (w : World)
        (pre : list (list string)) (bad : list string) (rest : list csv.line) :
  os_Open fileName w
  = Some (csv.Fields referenceCSVheader
            :: map csv.Fields pre ++ csv.Fields bad :: rest) ->
  Forall (fun row => length row = 10%nat) pre ->
  length bad <> 10%nat ->
  loadPrListFile g fileName isVerbose w
  = (Returned ([], false), w,
     (if isVerbose
      then [EvPrintln "Checking input file";
            EvPrintf ("  - Header is correct" ++ nl)%string []]
      else [])
       ++ [EvLogPrintf ("Unexpected error loading " ++ dq ++ fileName ++ dq ++ nl)%string
                       [VErr (Some (ErrCsv csv.ErrFieldCount))]]).
Proof.
  intros Hopen Hall Hbad.
  destruct (ReadAll_from_field_count 10 bad rest) with (pre := pre) (acc := @nil (list string))
    as (r & HR).
  { lia. }
  { unfold len. lia. }
  { eapply Forall_impl; [|exact Hall]. cbn beta. unfold len. intros row ->. reflexivity. }
  match goal with |- _ = (?o, _, ?T) =>
    enough (exists t, loadPrListFile g fileName isVerbose w = (o, w, t) /\ t = T)
      as (t & -> & ->) by reflexivity
  end.
  unfold loadPrListFile. eexists. split.
  - eapply bind_step; [apply call_os_Open_run| |reflexivity].
    rewrite Hopen.
    cbn [csv.NewReader csv.Read csv.input csv.FieldsPerRecord csv.readLine].
    change (len referenceCSVheader) with 10. cbn [Z.ltb Z.eqb Z.compare].
    eapply bind_step; [apply when_emit_run| |reflexivity].
    eapply bind_step; [apply validateHeader_reference_run| |reflexivity].
    cbn [negb].
    eapply bind_step; [apply when_emit_run| |reflexivity].
    unfold csv.ReadAll. cbn [csv.input csv.FieldsPerRecord]. rewrite HR.
    reflexivity.
  - now destruct isVerbose.
Qed.

Lemma wrong_field_count_fails_before_validation_witness :
  loadPrListFile Demo.quiet "short.csv" false DemoCommand.short_record_world
  = (Returned ([], false), DemoCommand.short_record_world,
     [EvLogPrintf ("Unexpected error loading " ++ dq ++ "short.csv" ++ dq ++ nl)%string
                  [VErr (Some (ErrCsv csv.ErrFieldCount))]]).
Proof.
  assert (os_Open "short.csv" DemoCommand.short_record_world
          = Some (csv.Fields referenceCSVheader
                    :: map csv.Fields [Demo.row "acme" "widget-api" "42"]
                         ++ csv.Fields ["acme"; "widget-api"] :: [])) as Hopen
      by reflexivity.
  assert (Forall (fun row => length row = 10%nat) [Demo.row "acme" "widget-api" "42"])
    as Hall by (repeat constructor).
  assert (length ["acme"; "widget-api"] <> 10%nat) as Hbad by discriminate.
  exact (wrong_field_count_fails_before_validation Demo.quiet "short.csv" false
           DemoCommand.short_record_world
           [Demo.row "acme" "widget-api" "42"] ["acme"; "widget-api"] []
           Hopen Hall Hbad).
Defined.

(** ** [validateHeader]: what it reports *)

Lemma index_run {World A : Type} (l : list A) (i : nat) (x : A) (w : World) :
  nth_error l i = Some x -> index l i w = (Returned x, w, []).
Proof. intros H. unfold index. now rewrite H. Qed.

Lemma validateHeader_range_first_mismatch {World : Type}
      (h s : string) (post1 post2 : list string) (w : World) :
  h <> s ->
  forall (pre front : list string),
    validateHeader_range (length front) (pre ++ h :: post1)
      (front ++ pre ++ s :: post2) true w
    = (Returned false, w,
       [EvPrintf headerFieldFormat
          [VInt (Z.of_nat (length front + length pre) + 1); VString h; VString s]]).
Proof.
  intros Hne. induction pre as [|x pre IH]; intros front.
  - cbn [app validateHeader_range length]. rewrite Nat.add_0_r.
    eapply bind_step; [apply (index_run _ _ s)| |reflexivity].
    + rewrite nth_error_app2 by lia. now rewrite Nat.sub_diag.
    + destruct (String.eqb_spec h s) as [E|_]; [contradiction|]. reflexivity.
  - cbn [app validateHeader_range].
    eapply bind_step; [apply (index_run _ _ x)| |reflexivity].
    + rewrite nth_error_app2 by lia. now rewrite Nat.sub_diag.
    + rewrite String.eqb_refl. cbn [negb].
      specialize (IH (front ++ [x])).
      rewrite length_app, <- app_assoc in IH. cbn [length app] in IH.
      rewrite Nat.add_1_r in IH. rewrite IH.
      cbn [length]. rewrite Nat.add_succ_r. reflexivity.
Qed.

(** When a header of the right length differs from the reference, the
    verbose diagnostic names the first column that differs, counted from
    one, with the field found and the field wanted; later differences are
    not reported. *)
Theorem validateHeader_reports_first_mismatch {World : Type}
        (pre post1 post2 : list string) (h s : string) (w : World) :
  h <> s ->
  length post1 = length post2 ->
  validateHeader (pre ++ h :: post1) (pre ++ s :: post2) true w
  = (Returned false, w,
     [EvPrintf headerFieldFormat [VInt (len pre + 1); VString h; VString s]]).
Proof.
  intros Hne Hlen. unfold validateHeader, len.
  rewrite !length_app. cbn [length]. rewrite Hlen, Z.eqb_refl. cbn [negb].
  exact (validateHeader_range_first_mismatch h s post1 post2 w Hne pre []).
Qed.

Lemma validateHeader_reports_first_mismatch_witness :
  validateHeader
    ["org"; "repo"; "number"; "URL"; "state"; "created_at"; "merged_at";
     "user.login"; "month_year"; "title"]
    referenceCSVheader true Demo.world
  = (Returned false, Demo.world,
     [EvPrintf headerFieldFormat [VInt 2; VString "repo"; VString "repository"]]).
Proof.
  assert ("repo" <> "repository") as Hne by discriminate.
  exact (validateHeader_reports_first_mismatch ["org"]
           ["number"; "URL"; "state"; "created_at"; "merged_at";
            "user.login"; "month_year"; "title"]
           ["number"; "url"; "state"; "created_at"; "merged_at";
            "user.login"; "month_year"; "title"]
           "repo" "repository" Demo.world Hne eq_refl).
Defined.

Lemma validateHeader_range_events {World : Type} (referenceHeader : list string)
      (isVerbose : bool) (w : World) :
  forall (header : list string) (i : nat),
    (i + length header = length referenceHeader)%nat ->
    exists b t,
      validateHeader_range i header referenceHeader isVerbose w = (Returned b, w, t) /\
      length t = (if negb b && isVerbose then 1 else 0)%nat.
Proof.
  induction header as [|v rest IH]; intros i Hlen.
  - exists true, []. split; reflexivity.
  - cbn [validateHeader_range]. simpl in Hlen.
    destruct (nth_error referenceHeader i) as [ref_i|] eqn:Href.
    2: { apply nth_error_None in Href. lia. }
    destruct (String.eqb v ref_i) eqn:E.
    + destruct (IH (S i)) as (b & t & Hrun & Ht); [lia|].
      exists b, t. split; [|exact Ht].
      eapply bind_step; [apply (index_run _ _ ref_i w Href)| |reflexivity].
      rewrite E. exact Hrun.
    + exists false. eexists. split.
      * eapply bind_step; [apply (index_run _ _ ref_i w Href)| |reflexivity].
        rewrite E. cbn [negb].
        eapply bind_step; [apply when_emit_run|reflexivity|reflexivity].
      * now destruct isVerbose.
Qed.

(** [validateHeader] prints one diagnostic when it rejects a header in
    verbose mode, and nothing otherwise: nothing when it accepts, nothing
    when it is not verbose. *)
Theorem validateHeader_prints_at_most_once {World : Type}
        (header referenceHeader : list string) (isVerbose : bool) (w : World) :
  exists b t,
    validateHeader header referenceHeader isVerbose w = (Returned b, w, t) /\
    length t = (if negb b && isVerbose then 1 else 0)%nat.
Proof.
  unfold validateHeader, len.
  destruct (Z.eqb_spec (Z.of_nat (length header)) (Z.of_nat (length referenceHeader)))
    as [E|E]; cbn [negb].
  - apply Nat2Z.inj in E.
    exact (validateHeader_range_events referenceHeader isVerbose w header 0%nat E).
  - exists false. eexists. split.
    + eapply bind_step; [apply when_emit_run|reflexivity|reflexivity].
    + now destruct isVerbose.
Qed.

(** ** The two patterns on the fields *)

(** The number check accepts exactly the non-empty strings of ASCII
    digits: leading zeros pass, a sign, a space or an empty field does
    not. *)
Theorem number_check_accepts_digit_strings (prNbr : string) :
  Regexp.MatchString pr_regexp prNbr = true <->
  prNbr <> EmptyString /\ string_forallb is_digit prNbr = true.
Proof.
  rewrite pr_regexp_digits, andb_true_iff.
  destruct prNbr; cbn [nonempty]; split; intros [H1 H2]; split;
    try assumption; try discriminate; try reflexivity.
  now contradiction H1.
Qed.

Lemma is_prj_char_lower_byte (c : ascii) : is_prj_char (lower_byte c) = is_prj_char c.
Proof. destruct c as [[] [] [] [] [] [] [] []]; reflexivity. Qed.

Lemma string_forallb_map (p : ascii -> bool) (f : ascii -> ascii) (s : string) :
  (forall c, p (f c) = p c) ->
  string_forallb p (string_map f s) = string_forallb p s.
Proof. intros E. induction s as [|c s IH]; simpl; [reflexivity|]. now rewrite E, IH. Qed.

(** On an ASCII project name the check does not depend on the case of the
    letters: the name passes exactly when it is not empty and made of
    letters, digits, underscores, hyphens and dots. *)
Theorem project_check_on_ascii_names (unicodeLower : string -> string) (prj : string) :
  isASCII prj = true ->
  Regexp.MatchString prj_regexp (ToLower unicodeLower prj)
  = nonempty prj && string_forallb is_prj_char prj.
Proof.
  intros Hascii. unfold ToLower. rewrite Hascii, prj_regexp_chars.
  rewrite (string_forallb_map _ _ _ is_prj_char_lower_byte).
  now destruct prj.
Qed.

Lemma project_check_on_ascii_names_witness :
  Regexp.MatchString prj_regexp (ToLower (fun s => s) "Widget.UI") = true.
Proof.
  exact (project_check_on_ascii_names (fun s => s) "Widget.UI" eq_refl).
Defined.

(** ** [performAction]: the calls it makes *)

Lemma messages_no_calls (t : list Event) :
  forallb is_message t = true ->
  fetch_calls t = [] /\ filter is_remove t = [] /\ filter is_bar t = [].
Proof.
  induction t as [|e t IH]; [repeat split|].
  cbn [forallb]. intros H. apply andb_prop in H. destruct H as [He Ht].
  destruct (IH Ht) as (H1 & H2 & H3).
  destruct e; try discriminate He; cbn; auto.
Qed.

Lemma fetch_calls_app (t1 t2 : list Event) :
  fetch_calls (t1 ++ t2) = fetch_calls t1 ++ fetch_calls t2.
Proof.
  induction t1 as [|e t1 IH]; [reflexivity|].
  destruct e; cbn; rewrite ?IH; reflexivity.
Qed.

Section BatchCalls.

Context {World : Type} {C : Collaborators World}.
Variable g : Globals.

Lemma bar_step_calls (w : World) :
  exists w' t,
    when (negb (isVerbose g))
      (failed <- call_bar_Add 1 ;;
       when failed
         (emit (EvLogPrintf
                  ("Unexpected error updating progress bar (%v)" ++ nl)%string
                  [VErr (Some ErrBar)]))) w
    = (Returned tt, w', t) /\
    fetch_calls t = [] /\ filter is_remove t = [] /\
    filter is_bar t = (if isVerbose g then [] else [EvBarAdd 1]).
Proof.
  destruct (isVerbose g); cbn [negb when].
  - exists w, []. repeat split.
  - unfold bind, call_bar_Add.
    destruct (bar_Add 1 w) as [failed w'].
    exists w'. destruct failed; cbn; eexists; repeat split.
Qed.

(** The loop fetches every item once, in the order of the list, always
    with the same flags and output file; it removes nothing, and advances
    the progress bar once per item unless the run is verbose. *)
Lemma performAction_loop_calls (isAppend : bool) :
  forall (prList : list string) (acc : Accounting) (w : World),
  exists acc' w' t,
    performAction_loop g prList isAppend acc w = (Returned acc', w', t) /\
    acc' = fold_left account (fetched t) acc /\
    fetch_calls t
    = map (fun pr => (pr, isAppend, globalIsNoHeader g, outputFileName g)) prList /\
    filter is_remove t = [] /\
    filter is_bar t
    = (if isVerbose g then [] else repeat (EvBarAdd 1) (length prList)).
Proof.
  induction prList as [|pr prList IH]; intros acc w.
  - exists acc, w, []. repeat split. now destruct (isVerbose g).
  - cbn [performAction_loop].
    destruct (getCommenters pr isAppend (globalIsNoHeader g) (outputFileName g) w)
      as [n w1] eqn:Hfetch.
    destruct (bar_step_calls w1) as (w2 & tb & Hbar & Hb1 & Hb2 & Hb3).
    destruct (IH (account acc n) w2) as (acc' & w3 & tl & Hloop & Hacc & Hl1 & Hl2 & Hl3).
    exists acc', w3,
      (EvGetCommenters pr isAppend (globalIsNoHeader g) (outputFileName g) n :: tb ++ tl).
    split; [|split; [|split; [|split]]].
    + eapply bind_step.
      * unfold call_getCommenters. rewrite Hfetch. reflexivity.
      * cbn zeta. eapply bind_step; [exact Hbar|exact Hloop|reflexivity].
      * reflexivity.
    + cbn [fetched]. rewrite fetched_app.
      assert (fetched tb = []) as ->.
      { clear - Hb1. induction tb as [|e tb IHtb]; [reflexivity|].
        destruct e; cbn in *; try discriminate Hb1; auto. }
      exact Hacc.
    + cbn [fetch_calls map]. now rewrite fetch_calls_app, Hb1, Hl1.
    + cbn [filter is_remove]. now rewrite filter_app, Hb2, Hl2.
    + cbn [filter is_bar]. rewrite filter_app, Hb3, Hl3.
      now destruct (isVerbose g).
Qed.

Lemma performAction_with_loop (inputFile : string) (w w2 w' : World)
      (prList : list string) (tl tloop : list Event) (acc : Accounting) :
  loadPrListFile g inputFile (isVerbose g) w = (Returned (prList, true), w, tl) ->
  checkIfSufficientQuota (len prList) (prepared_world g w) = (None, w2) ->
  performAction_loop g prList true no_accounting
    (if isVerbose g then w2 else progressbar_Default (len prList) w2)
  = (Returned acc, w', tloop) ->
  performAction g inputFile w
  = (Returned tt, w',
     (prelude g inputFile ++ tl ++ prepare_events g w ++ [EvQuota (len prList)])
       ++ (if isVerbose g then [] else [EvBarDefault (len prList)])
       ++ tloop ++ report g acc).
Proof.
  intros Hload Hquota Hloop.
  unfold performAction, prelude.
  eapply bind_step; [apply emit_run| |reflexivity].
  eapply bind_step; [apply when_emit_run| |].
  - eapply bind_step; [exact Hload| |reflexivity].
    cbn [negb].
    eapply bind_step; [reflexivity| |reflexivity].
    eapply bind_step; [apply prepareOutput_run| |reflexivity].
    eapply bind_step;
      [unfold call_checkIfSufficientQuota; rewrite Hquota; reflexivity| |reflexivity].
    eapply (bind_step _ _ _
              (if isVerbose g then w2 else progressbar_Default (len prList) w2) _ tt _ _
              (if isVerbose g then [] else [EvBarDefault (len prList)])).
    + now destruct (isVerbose g).
    + eapply bind_step; [exact Hloop|reflexivity|reflexivity].
    + reflexivity.
  - destruct (isRootDebug g); cbn [app]; fold (@app Event);
      rewrite <- ?app_assoc; cbn [app]; reflexivity.
Qed.

End BatchCalls.

(** C10. The append argument of every call of the fetch collaborator is
    [true], whatever the append flag of the user.  When the run does not
    append and the output file exists, the file is removed before the
    first fetch, and what follows runs on the world without it: the quota
    guard is called in the world that [os.Remove] leaves, and the loop of
    the fetches starts from the world that the guard (and the creation of
    the progress bar) leaves.  A fresh output file comes from the
    removal. *)
Theorem fetch_always_appends {World : Type} {C : Collaborators World}
        (g : Globals) (inputFile : string) (w : World) :
  forallb fetch_appends (trace_of (performAction g inputFile w)) = true /\
  (forall prList,
      outcome_of (loadPrListFile g inputFile (isVerbose g) w) = Returned (prList, true) ->
      globalIsAppend g = false ->
      fileExist (outputFileName g) w = true ->
      (exists t1 t2,
          trace_of (performAction g inputFile w)
          = t1 ++ EvRemove (outputFileName g) :: t2 /\
          existsb is_fetch t1 = false) /\
      match checkIfSufficientQuota (len prList) (os_Remove (outputFileName g) w) with
      | (Some code, w2) =>
          outcome_of (performAction g inputFile w) = Exited code /\
          world_of (performAction g inputFile w) = w2
      | (None, w2) =>
          outcome_of (performAction g inputFile w) = Returned tt /\
          world_of (performAction g inputFile w)
          = world_of (performAction_loop g prList true no_accounting
                        (if isVerbose g then w2
                         else progressbar_Default (len prList) w2))
      end).
Proof.
  destruct (loadPrListFile_total g inputFile (isVerbose g) w)
    as (prList & b & tl & Hrun & Hmsg).
  destruct (messages_quiet tl Hmsg) as (_ & Hq & Hf & Ha).
  destruct (messages_quiet _ (prelude_messages g inputFile)) as (_ & Hpq & Hpf & Hpa).
  destruct (prepare_events_quiet g w) as (_ & _ & Hrf & Hra).
  destruct b.
  - pose proof (performAction_loaded g inputFile w prList tl Hrun) as Hcases.
    cbn zeta in Hcases.
    split.
    + destruct (checkIfSufficientQuota (len prList) (prepared_world g w))
        as [[code|] w2].
      * rewrite Hcases. cbn [trace_of snd].
        rewrite !forallb_app, Hpa, Ha, Hra. reflexivity.
      * destruct Hcases as (w' & tloop & Hperf & _ & _ & Hla).
        rewrite Hperf. cbn [trace_of snd].
        destruct (messages_quiet _ (report_messages g
                    (fold_left account (fetched tloop) no_accounting)))
          as (_ & _ & _ & Hrep).
        destruct (bar_default_quiet (isVerbose g) (len prList)) as (_ & _ & Hbar).
        cbn zeta in Hbar.
        rewrite !forallb_app, Hpa, Ha, Hra, Hbar, Hla, Hrep. reflexivity.
    + intros prList' Hload Happend Hexists.
      rewrite Hrun in Hload. cbn in Hload. injection Hload as <-.
      assert (prepared_world g w = os_Remove (outputFileName g) w) as Hworld
          by (unfold prepared_world; now rewrite Happend, Hexists).
      assert (prepare_events g w = [EvRemove (outputFileName g)]) as Hevents
          by (unfold prepare_events; now rewrite Happend, Hexists).
      rewrite Hworld in Hcases.
      destruct (checkIfSufficientQuota (len prList) (os_Remove (outputFileName g) w))
        as [[code|] w2] eqn:Hquota.
      * rewrite Hcases. cbn [outcome_of world_of trace_of fst snd]. split; [|now split].
        exists (prelude g inputFile ++ tl), [EvQuota (len prList)]. split.
        -- rewrite Hevents. now rewrite <- app_assoc.
        -- now rewrite existsb_app, Hpf, Hf.
      * clear Hcases. rewrite <- Hworld in Hquota.
        destruct (performAction_loop_calls g true prList no_accounting
                    (if isVerbose g then w2 else progressbar_Default (len prList) w2))
          as (acc & w' & tloop & Hloop & _).
        rewrite (performAction_with_loop g inputFile w w2 w' prList tl tloop acc
                   Hrun Hquota Hloop).
        rewrite Hloop. cbn [outcome_of world_of trace_of fst snd].
        split; [|now split].
        eexists (prelude g inputFile ++ tl), _. split.
        -- rewrite Hevents. rewrite <- !app_assoc. cbn [app]. reflexivity.
        -- now rewrite existsb_app, Hpf, Hf.
  - rewrite (performAction_load_failed g inputFile w prList tl Hrun).
    cbn [trace_of snd]. split.
    + rewrite !forallb_app, Hpa, Ha. reflexivity.
    + intros prList' Hload. rewrite Hrun in Hload. discriminate Hload.
Qed.

Lemma fetch_always_appends_witness :
  globalIsAppend Demo.quiet = false /\
  os_Open "out.csv" Demo.world = Some [csv.Fields ["old"]] /\
  map fetch_appends
      (filter is_fetch (trace_of (performAction Demo.quiet "three.csv" Demo.world)))
  = [true; true; true] /\
  (outcome_of (performAction Demo.quiet "three.csv" Demo.world) = Returned tt /\
   world_of (performAction Demo.quiet "three.csv" Demo.world)
   = world_of (performAction_loop Demo.quiet
                 ["acme/widget-api/42"; "acme/Widget.UI/7"; "jenkinsci/jenkins/1234"]
                 true no_accounting (os_Remove "out.csv" Demo.world))) /\
  os_Open "out.csv" (world_of (performAction Demo.quiet "three.csv" Demo.world))
  = Some [csv.Fields ["acme/widget-api/42"]; csv.Fields ["acme/Widget.UI/7"];
          csv.Fields ["jenkinsci/jenkins/1234"]].
Proof.
  split; [reflexivity|]. split; [reflexivity|]. split; [reflexivity|].
  split; [|reflexivity].
  assert (outcome_of (loadPrListFile Demo.quiet "three.csv" (isVerbose Demo.quiet)
                        Demo.world)
          = Returned (["acme/widget-api/42"; "acme/Widget.UI/7";
                       "jenkinsci/jenkins/1234"], true)) as Hload by reflexivity.
  assert (fileExist (outputFileName Demo.quiet) Demo.world = true) as Hexists
      by reflexivity.
  exact (proj2 (proj2 (fetch_always_appends Demo.quiet "three.csv" Demo.world)
                  ["acme/widget-api/42"; "acme/Widget.UI/7";
                   "jenkinsci/jenkins/1234"]
                  Hload eq_refl Hexists)).
Defined.

(** How [performAction] ends.  When the load fails it exits with status
    1.  After a successful load the only way out is the quota guard, with
    the status the guard chooses (which may be 1 as well); if the guard
    returns, the run returns: a failure of the progress bar does not stop
    it, and nothing is indexed out of range. *)
Theorem performAction_outcomes {World : Type} {C : Collaborators World}
        (g : Globals) (inputFile : string) (w : World) :
  outcome_of (performAction g inputFile w)
  = match outcome_of (loadPrListFile g inputFile (isVerbose g) w) with
    | Returned (prList, true) =>
        match fst (checkIfSufficientQuota (len prList) (prepared_world g w)) with
        | Some code => Exited code
        | None => Returned tt
        end
    | _ => Exited 1
    end.
Proof.
  destruct (loadPrListFile_total g inputFile (isVerbose g) w)
    as (prList & b & tl & Hrun & _).
  rewrite Hrun. cbn [outcome_of fst].
  destruct b.
  - pose proof (performAction_loaded g inputFile w prList tl Hrun) as Hcases.
    cbn zeta in Hcases.
    destruct (checkIfSufficientQuota (len prList) (prepared_world g w)) as [[code|] w2];
      cbn [fst].
    + now rewrite Hcases.
    + destruct Hcases as (w' & tloop & Hperf & _). now rewrite Hperf.
  - now rewrite (performAction_load_failed g inputFile w prList tl Hrun).
Qed.

(** In a run that gets past the quota guard, every work item is fetched
    exactly once, in the order of the file, with the append flag set, the
    no-header flag of the command line and the output file name. *)
Theorem every_item_is_fetched_once_in_order {World : Type} {C : Collaborators World}
        (g : Globals) (inputFile : string) (w : World) (prList : list string) :
  outcome_of (loadPrListFile g inputFile (isVerbose g) w) = Returned (prList, true) ->
  fst (checkIfSufficientQuota (len prList) (prepared_world g w)) = None ->
  fetch_calls (trace_of (performAction g inputFile w))
  = map (fun pr => (pr, true, globalIsNoHeader g, outputFileName g)) prList.
Proof.
  intros Hload Hquota.
  destruct (loadPrListFile_total g inputFile (isVerbose g) w)
    as (prList' & b & tl & Hrun & Hmsg).
  rewrite Hrun in Hload. cbn in Hload. injection Hload as -> ->.
  destruct (checkIfSufficientQuota (len prList) (prepared_world g w))
    as [q w2] eqn:Hq. cbn [fst] in Hquota. subst q.
  destruct (performAction_loop_calls g true prList no_accounting
              (if isVerbose g then w2 else progressbar_Default (len prList) w2))
    as (acc & w' & tloop & Hloop & _ & Hcalls & _).
  rewrite (performAction_with_loop g inputFile w w2 w' prList tl tloop acc Hrun Hq Hloop).
  cbn [trace_of snd].
  destruct (messages_no_calls _ (prelude_messages g inputFile)) as (Hp & _).
  destruct (messages_no_calls _ Hmsg) as (Hl & _).
  destruct (messages_no_calls _ (report_messages g acc)) as (Hr & _).
  rewrite !fetch_calls_app, Hp, Hl, Hr, Hcalls.
  unfold prepare_events.
  destruct (negb (globalIsAppend g) && fileExist (outputFileName g) w)%bool,
    (isVerbose g); cbn; now rewrite app_nil_r.
Qed.

Lemma every_item_is_fetched_once_in_order_witness :
  fetch_calls (trace_of (performAction Demo.quiet "three.csv" Demo.world))
  = [("acme/widget-api/42", true, false, "out.csv");
     ("acme/Widget.UI/7", true, false, "out.csv");
     ("jenkinsci/jenkins/1234", true, false, "out.csv")].
Proof.
  exact (every_item_is_fetched_once_in_order Demo.quiet "three.csv" Demo.world
           ["acme/widget-api/42"; "acme/Widget.UI/7"; "jenkinsci/jenkins/1234"]
           eq_refl eq_refl).
Defined.



(** The output file is removed at most once, and only in a run that
    loaded its input, does not append, and found the file: a failed load
    or the append mode leaves an existing output file in place. *)
Theorem output_file_removal {World : Type} {C : Collaborators World}
        (g : Globals) (inputFile : string) (w : World) :
  filter is_remove (trace_of (performAction g inputFile w))
  = (if load_succeeds g inputFile w
        && negb (globalIsAppend g) && fileExist (outputFileName g) w
     then [EvRemove (outputFileName g)] else []).
Proof.
  unfold load_succeeds.
  destruct (loadPrListFile_total g inputFile (isVerbose g) w)
    as (prList & b & tl & Hrun & Hmsg).
  rewrite Hrun. cbn [outcome_of fst].
  destruct (messages_no_calls _ (prelude_messages g inputFile)) as (_ & Hp & _).
  destruct (messages_no_calls _ Hmsg) as (_ & Hl & _).
  assert (filter is_remove (prepare_events g w)
          = if (negb (globalIsAppend g) && fileExist (outputFileName g) w)%bool
            then [EvRemove (outputFileName g)] else []) as Hprep.
  { unfold prepare_events.
    now destruct (negb (globalIsAppend g) && fileExist (outputFileName g) w)%bool. }
  destruct b; cbn [andb].
  - destruct (checkIfSufficientQuota (len prList) (prepared_world g w))
      as [[code|] w2] eqn:Hq.
    + pose proof (performAction_loaded g inputFile w prList tl Hrun) as Hcases.
      cbn zeta in Hcases. rewrite Hq in Hcases. rewrite Hcases. cbn [trace_of snd].
      rewrite !filter_app, Hp, Hl, Hprep. cbn. now rewrite app_nil_r.
    + destruct (performAction_loop_calls g true prList no_accounting
                  (if isVerbose g then w2 else progressbar_Default (len prList) w2))
        as (acc & w' & tloop & Hloop & _ & _ & Hrem & _).
      rewrite (performAction_with_loop g inputFile w w2 w' prList tl tloop acc
                 Hrun Hq Hloop).
      cbn [trace_of snd].
      destruct (messages_no_calls _ (report_messages g acc)) as (_ & Hr & _).
      rewrite !filter_app, Hp, Hl, Hprep, Hrem, Hr.
      destruct (isVerbose g); cbn; now rewrite ?app_nil_r.
  - rewrite (performAction_load_failed g inputFile w prList tl Hrun).
    cbn [trace_of snd]. rewrite !filter_app, Hp, Hl. reflexivity.
Qed.

(** ** The command: [Args] and [Run] *)

Section CommandFacts.

Context {World : Type} {C : Collaborators World} {D : CommandCollaborators World}.
Variable g : Globals.

Lemma commentersCmd_Args_run (args : list string) (w : World) :
  commentersCmd_Args args w
  = (Returned (match args with
               | [] => Some (TooFewArgs 1 0)
               | arg0 :: _ => if fileExist arg0 w then None else Some InvalidFile
               end), w, []).
Proof.
  unfold commentersCmd_Args, MinimumNArgs, len.
  destruct args as [|arg0 rest]; [reflexivity|].
  assert ((Z.of_nat (length (arg0 :: rest)) <? 1) = false) as ->
      by (apply Z.ltb_ge; cbn [length]; lia).
  unfold index. cbn [nth_error].
  unfold bind, ret, call_fileExist.
  now destruct (fileExist arg0 w).
Qed.

Lemma commentersCmd_Run_run (arg0 : string) (rest : list string) (w : World) :
  let start := run_start g w in
  let batch := performAction g arg0 (fst start) in
  commentersCmd_Run g (arg0 :: rest) w
  = match outcome_of batch with
    | Returned _ =>
        (Returned tt, fst (run_end g (world_of batch)),
         snd start ++ trace_of batch ++ snd (run_end g (world_of batch)))
    | Exited code => (Exited code, world_of batch, snd start ++ trace_of batch)
    | Panicked => (Panicked, world_of batch, snd start ++ trace_of batch)
    end.
Proof.
  intros start batch. subst start batch.
  unfold commentersCmd_Run, run_start, run_end.
  destruct (isRootDebug g).
  - unfold logQuota, index. cbn [nth_error].
    unfold bind, call_initLoggers, when, emit, ret, call_get_quota_data_v4.
    destruct (get_quota_data_v4 (initLoggers w)) as [q1 w1]. cbn [fst snd app].
    destruct (performAction g arg0 w1) as [[[[]|code|] wP] tP];
      cbn [outcome_of world_of trace_of fst snd]; try reflexivity.
    destruct (get_quota_data_v4 wP) as [q2 w2]. cbn [fst snd app]. reflexivity.
  - unfold index. cbn [nth_error].
    unfold bind, call_initLoggers, when, emit, ret. cbn [fst snd app].
    destruct (performAction g arg0 (initLoggers w)) as [[[[]|code|] wP] tP];
      cbn [outcome_of world_of trace_of fst snd app]; rewrite ?app_nil_r; reflexivity.
Qed.

End CommandFacts.

(** [Args] accepts a command line exactly when it has a first argument
    that names an existing file; an empty command line is the error of
    [cobra.MinimumNArgs], and arguments after the first are not looked
    at.  The check reads the world and prints nothing. *)
Theorem commentersCmd_Args_accepts_iff {World : Type} {C : Collaborators World}
        (args : list string) (w : World) :
  exists r,
    commentersCmd_Args args w = (Returned r, w, []) /\
    (r = None <-> exists arg0 rest, args = arg0 :: rest /\ fileExist arg0 w = true) /\
    (r = Some (TooFewArgs 1 0) <-> args = []).
Proof.
  rewrite commentersCmd_Args_run. eexists. split; [reflexivity|].
  destruct args as [|arg0 rest].
  - split; split; try discriminate; try reflexivity.
    intros (a & r & H & _). discriminate H.
  - destruct (fileExist arg0 w) eqn:E; split; split; try discriminate.
    + intros _. now exists arg0, rest.
    + reflexivity.
    + intros (a & r & H & Ha). injection H as <- <-. congruence.
Qed.

(** With accepted arguments the command runs the batch on its first
    argument, after the loggers are initialised and, in debug mode, the
    starting quota is logged.  If the batch exits, the command ends there
    with the same status: the closing quota line of the debug log is
    written only after a batch that returned.  The command never indexes
    its arguments out of range. *)
Theorem commentersCmd_execute_brackets_the_batch
        {World : Type} {C : Collaborators World} {D : CommandCollaborators World}
        (g : Globals) (arg0 : string) (rest : list string) (w : World) :
  fileExist arg0 w = true ->
  let start := run_start g w in
  let batch := performAction g arg0 (fst start) in
  (forall code,
      outcome_of batch = Exited code ->
      commentersCmd_execute g (arg0 :: rest) w
      = (Exited code, world_of batch, snd start ++ trace_of batch)) /\
  (outcome_of batch = Returned tt ->
   commentersCmd_execute g (arg0 :: rest) w
   = (Returned None, fst (run_end g (world_of batch)),
      snd start ++ trace_of batch ++ snd (run_end g (world_of batch)))) /\
  outcome_of (commentersCmd_execute g (arg0 :: rest) w) <> Panicked.
Proof.
  intros Hexists start batch.
  assert (commentersCmd_execute g (arg0 :: rest) w
          = let r := commentersCmd_Run g (arg0 :: rest) w in
            match outcome_of r with
            | Returned _ => (Returned None, world_of r, trace_of r)
            | Exited code => (Exited code, world_of r, trace_of r)
            | Panicked => (Panicked, world_of r, trace_of r)
            end) as Hexec.
  { unfold commentersCmd_execute.
    unfold bind at 1. rewrite commentersCmd_Args_run, Hexists.
    unfold bind.
    destruct (commentersCmd_Run g (arg0 :: rest) w) as [[[[]|code|] w'] t'];
      cbn; rewrite ?app_nil_r; reflexivity. }
  rewrite Hexec, (commentersCmd_Run_run g arg0 rest w). cbn zeta.
  fold start. fold batch.
  pose proof (performAction_outcomes g arg0 (fst start)) as Hout. fold batch in Hout.
  split; [|split].
  - intros code Hcode. rewrite Hcode. reflexivity.
  - intros Hret. rewrite Hret. reflexivity.
  - destruct (outcome_of batch) as [[]|code|] eqn:Hb; cbn; try discriminate.
    exfalso.
    destruct (outcome_of (loadPrListFile g arg0 (isVerbose g) (fst start)))
      as [[prList [|]]| |]; try discriminate Hout.
    destruct (fst (checkIfSufficientQuota (len prList) (prepared_world g (fst start))));
      discriminate Hout.
Qed.

Lemma commentersCmd_execute_brackets_the_batch_witness :
  outcome_of (commentersCmd_execute DemoCommand.debug ["missing.csv"] Demo.world)
  = Exited 1 /\
  existsb (fun e => match e with
                    | EvDebugPrintf format _ => String.eqb format endQuotaFormat
                    | _ => false
                    end)
          (trace_of (commentersCmd_execute DemoCommand.debug ["missing.csv"] Demo.world))
  = false.
Proof.
  assert (fileExist "missing.csv" Demo.world = true) as Hexists by reflexivity.
  pose proof (proj1 (commentersCmd_execute_brackets_the_batch
                       DemoCommand.debug "missing.csv" [] Demo.world Hexists) 1) as H.
  cbn zeta in H.
  assert (outcome_of (performAction DemoCommand.debug "missing.csv"
                        (fst (run_start DemoCommand.debug Demo.world))) = Exited 1)
    as Hout by reflexivity.
  rewrite (H Hout). split; reflexivity.
Defined.
